(** * SolrClient2: the schema client ([src/SolrClient2/schema.py])

    A shallow embedding of class [Schema] and of the Python primitives its
    methods use, followed by the properties of its methods.

    Conventions of the embedding.
    - A Python value is a tree of type [pyval]: [None], booleans, integers,
      strings, lists and dictionaries with string keys.  Floating point
      numbers are left out.  A string is a sequence of code points below 256.
    - A dictionary is an association list in insertion order; its keys are
      pairwise distinct and [dict_get] returns the binding of a key.
    - A method is a function in the monad [M]: it takes the [World] (the
      requests sent so far, the log records, the object store holding the
      dictionaries the caller passes by reference) and gives back either a
      value or the exception raised, with the new [World].
    - The transport collaborator is not part of this module: it is a
      field of the client object, a function from the requests sent so far
      and the present request to a parsed response or a transport error.
    - The module raises [ValueError] for every failed precondition; the
      interface document calls the ones of the create methods
      [AlreadyExistsError] and the ones of get, replace and delete
      [NotFoundError]. *)

From Stdlib Require Import ZArith List Bool Ascii String Lia PeanoNat.
From Stdlib Require Import DecimalString.
Import ListNotations.

Local Open Scope list_scope.
Local Open Scope string_scope.

(** List concatenation, [++] being the one of strings here. *)
Local Infix "+++" := List.app (right associativity, at level 60).

(** ** Python values *)

#[warnings="-register-all"]
Inductive pyval : Type :=
| PNone
| PBool (b : bool)
| PInt (z : Z)
| PStr (s : string)
| PList (l : list pyval)
| PDict (d : list (string * pyval)).

Definition pydict : Type := list (string * pyval).

Module Py.

(** [d[k]] on the items of a dictionary, [None] when the key is missing. *)
Fixpoint dict_get {A : Type} (k : string) (d : list (string * A)) : option A :=
  match d with
  | [] => None
  | (k', v) :: rest => if String.eqb k k' then Some v else dict_get k rest
  end.

(** Python's [==] on the values of [pyval]: [bool] is a subclass of [int]
    ([True == 1]), lists compare element by element, dictionaries compare
    as sets of items whatever the insertion order. *)
Fixpoint eq (a b : pyval) {struct a} : bool :=
  match a, b with
  | PNone, PNone => true
  | PBool x, PBool y => Bool.eqb x y
  | PBool x, PInt y => Z.eqb (Z.b2z x) y
  | PInt x, PBool y => Z.eqb x (Z.b2z y)
  | PInt x, PInt y => Z.eqb x y
  | PStr x, PStr y => String.eqb x y
  | PList la, PList lb =>
      (fix items (la lb : list pyval) {struct la} : bool :=
         match la, lb with
         | [], [] => true
         | x :: xs, y :: ys => eq x y && items xs ys
         | _, _ => false
         end) la lb
  | PDict da, PDict db =>
      Nat.eqb (List.length da) (List.length db) &&
      (fix items (da : list (string * pyval)) {struct da} : bool :=
         match da with
         | [] => true
         | kv :: rest =>
             match dict_get (fst kv) db with
             | Some v' => eq (snd kv) v'
             | None => false
             end && items rest
         end) da
  | _, _ => false
  end.

(** *** Characters *)

Definition dquote : ascii := ascii_of_nat 34.
Definition squote : ascii := ascii_of_nat 39.
Definition backslash : ascii := ascii_of_nat 92.

Definition chr (a : ascii) : string := String a EmptyString.

Definition hex_digit (n : nat) : ascii :=
  if Nat.ltb n 10 then ascii_of_nat (48 + n) else ascii_of_nat (87 + n).

(** Two lower-case hexadecimal digits of a code point below 256. *)
Definition hex2 (n : nat) : string :=
  String (hex_digit (n / 16)) (String (hex_digit (n mod 16)) EmptyString).

Fixpoint concat_map (f : ascii -> string) (s : string) : string :=
  match s with
  | EmptyString => EmptyString
  | String c rest => f c ++ concat_map f rest
  end.

Fixpoint contains_char (c : ascii) (s : string) : bool :=
  match s with
  | EmptyString => false
  | String c' rest => Ascii.eqb c c' || contains_char c rest
  end.

(** [", ".join(parts)] *)
Fixpoint join (sep : string) (parts : list string) : string :=
  match parts with
  | [] => EmptyString
  | [p] => p
  | p :: rest => p ++ sep ++ join sep rest
  end.

(** [str(n)] of an integer. *)
Definition str_int (z : Z) : string := NilZero.string_of_int (Z.to_int z).

(** *** [repr] and [str] *)

(** [str.isprintable] on one code point below 256. *)
Definition printable (n : nat) : bool :=
  (Nat.leb 32 n && Nat.leb n 126) ||
  (Nat.leb 161 n && negb (Nat.eqb n 173)).

(** One character of [repr(s)], [q] being the quote chosen for [s]. *)
Definition repr_char (q : ascii) (c : ascii) : string :=
  let n := nat_of_ascii c in
  if Ascii.eqb c q || Ascii.eqb c backslash then String backslash (chr c)
  else if Nat.eqb n 9 then String backslash "t"
  else if Nat.eqb n 10 then String backslash "n"
  else if Nat.eqb n 13 then String backslash "r"
  else if printable n then chr c
  else String backslash ("x" ++ hex2 n).

(** [repr(s)] of a string: single quotes, unless the string holds a single
    quote and no double quote. *)
Definition repr_str (s : string) : string :=
  let q := if contains_char squote s && negb (contains_char dquote s)
           then dquote else squote in
  String q (concat_map (repr_char q) s ++ chr q).

Fixpoint repr (v : pyval) : string :=
  match v with
  | PNone => "None"
  | PBool true => "True"
  | PBool false => "False"
  | PInt z => str_int z
  | PStr s => repr_str s
  | PList l => "[" ++ join ", " (List.map repr l) ++ "]"
  | PDict d =>
      "{" ++ join ", "
               (List.map (fun kv => repr_str (fst kv) ++ ": " ++ repr (snd kv)) d)
          ++ "}"
  end.

(** [str(v)], which is also what ["{}".format(v)] inserts. *)
Definition str (v : pyval) : string :=
  match v with
  | PStr s => s
  | _ => repr v
  end.

(** *** [json.dumps] with its default arguments *)

Definition json_char (c : ascii) : string :=
  let n := nat_of_ascii c in
  if Ascii.eqb c dquote || Ascii.eqb c backslash then String backslash (chr c)
  else if Nat.eqb n 8 then String backslash "b"
  else if Nat.eqb n 12 then String backslash "f"
  else if Nat.eqb n 10 then String backslash "n"
  else if Nat.eqb n 13 then String backslash "r"
  else if Nat.eqb n 9 then String backslash "t"
  else if Nat.leb 32 n && Nat.leb n 126 then chr c
  else String backslash ("u00" ++ hex2 n).

Definition json_str (s : string) : string :=
  String dquote (concat_map json_char s ++ chr dquote).

Fixpoint json_dumps (v : pyval) : string :=
  match v with
  | PNone => "null"
  | PBool true => "true"
  | PBool false => "false"
  | PInt z => str_int z
  | PStr s => json_str s
  | PList l => "[" ++ join ", " (List.map json_dumps l) ++ "]"
  | PDict d =>
      "{" ++ join ", "
               (List.map (fun kv => json_str (fst kv) ++ ": " ++ json_dumps (snd kv)) d)
          ++ "}"
  end.

End Py.

(** ** Exceptions, the world and the monad of methods *)

(** The exceptions a method can end with: the [ValueError] the module raises
    itself, the [KeyError] and [TypeError] of subscripting and iterating
    a response of unexpected shape, and whatever the transport raises,
    which the module never catches. *)
Inductive exn : Type :=
| ValueError (msg : string)
| KeyError (key : string)
| TypeError
| TransportError (e : string).

Inductive result (A : Type) : Type :=
| Ok (a : A)
| Raise (e : exn).

Arguments Ok {A} a.
Arguments Raise {A} e.

(** The keyword arguments of one call of [transport.send_request]; [None]
    stands for an argument that is not passed. *)
Record Request : Type := mkRequest {
  method : option string;
  endpoint : string;
  collection : string;
  data : option string
}.

Inductive level : Type := DEBUG | INFO.

Definition LogRecord : Type := (level * string)%type.

(** A reference to a dictionary of the object store. *)
Definition loc : Type := nat.

Record World : Type := mkWorld {
  trace : list Request;      (* calls of send_request, oldest first *)
  log : list LogRecord;      (* records handed to the logger, oldest first *)
  cells : loc -> pydict;     (* the dictionaries of the store *)
  next : loc                 (* the first reference not yet in use *)
}.

Definition M (A : Type) : Type := World -> result A * World.

Definition ret {A : Type} (a : A) : M A := fun w => (Ok a, w).

Definition raise {A : Type} (e : exn) : M A := fun w => (Raise e, w).

Definition bind {A B : Type} (m : M A) (f : A -> M B) : M B :=
  fun w =>
    match m w with
    | (Ok a, w') => f a w'
    | (Raise e, w') => (Raise e, w')
    end.

Definition lift {A : Type} (r : result A) : M A := fun w => (r, w).

Notation "x <- m ;; k" := (bind m (fun x => k))
  (at level 61, m at next level, right associativity).
Notation "m ;;; k" := (bind m (fun _ => k))
  (at level 61, right associativity).

(** Reading the dictionary behind a reference. *)
Definition deref (l : loc) : M pydict := fun w => (Ok (cells w l), w).

(** A new dictionary object with the items [d]. *)
Definition alloc (d : pydict) : M loc :=
  fun w =>
    (Ok (next w),
     mkWorld (trace w) (log w)
             (fun l => if Nat.eqb l (next w) then d else cells w l)
             (S (next w))).

Definition emit (lv : level) (msg : string) : M unit :=
  fun w => (Ok tt, mkWorld (trace w) (log w +++ [(lv, msg)]) (cells w) (next w)).

(** ** Subscripting, iteration and membership *)

Definition dict_getitem (d : pydict) (k : string) : result pyval :=
  match Py.dict_get k d with
  | Some v => Ok v
  | None => Raise (KeyError k)
  end.

(** [v[k]] with a string [k]: only a dictionary can be subscripted by one. *)
Definition getitem (v : pyval) (k : string) : result pyval :=
  match v with
  | PDict d => dict_getitem d k
  | _ => Raise TypeError
  end.

Fixpoint chars (s : string) : list pyval :=
  match s with
  | EmptyString => []
  | String c rest => PStr (Py.chr c) :: chars rest
  end.

(** The values a [for] loop or a comprehension goes through. *)
Definition iter (v : pyval) : result (list pyval) :=
  match v with
  | PList l => Ok l
  | PDict d => Ok (List.map (fun kv => PStr (fst kv)) d)
  | PStr s => Ok (chars s)
  | _ => Raise TypeError
  end.

(** [x in c] for a dictionary [x]: a list is searched with [==]; a
    dictionary is not hashable and a string takes strings only, so
    everything else raises [TypeError]. *)
Definition dict_in (x : pydict) (c : pyval) : result bool :=
  match c with
  | PList l => Ok (List.existsb (fun e => Py.eq e (PDict x)) l)
  | _ => Raise TypeError
  end.

(** [[f(x) for x in l]] for an [f] that can raise. *)
Fixpoint comprehension {A B : Type} (f : A -> result B) (l : list A)
  : result (list B) :=
  match l with
  | [] => Ok []
  | x :: rest =>
      match f x with
      | Ok y =>
          match comprehension f rest with
          | Ok ys => Ok (y :: ys)
          | Raise e => Raise e
          end
      | Raise e => Raise e
      end
  end.

(** [x in l] for a list [l]. *)
Definition list_in (x : pyval) (l : list pyval) : bool :=
  List.existsb (fun e => Py.eq e x) l.

(** ** The client object *)

(** What one call of [send_request] comes back with: the parsed response
    body (the connection information that comes with it is dropped by every
    caller), or an exception of the transport's own. *)
Inductive reply : Type :=
| Response (res : pyval)
| Failure (e : string).

Definition Transport : Type := list Request -> Request -> reply.

Definition of_reply (r : reply) : result pyval :=
  match r with
  | Response res => Ok res
  | Failure e => Raise (TransportError e)
  end.

(** The object the client is built on: its transport and its [devel] flag. *)
Record Solr : Type := mkSolr {
  transport : Transport;
  solr_devel : bool
}.

Record Schema : Type := mkSchema {
  solr : Solr;
  coll_api : string;
  devel : bool;
  schema_endpoint : string
}.

(** [Schema.__init__] *)
Definition init (s : Solr) : Schema :=
  mkSchema s "/admin/collections"
           (if solr_devel s then true else false)
           "schema/".

(** [res, con_info = self.solr.transport.send_request(...)]: the parsed
    response, or the exception of the transport; the call is recorded. *)
Definition send_request (self : Schema) (req : Request) : M pyval :=
  fun w =>
    (of_reply (transport (solr self) (trace w) req),
     mkWorld (trace w +++ [req]) (log w) (cells w) (next w)).

(** ** The methods of [Schema] *)

(** ["<a> {} <b> {}".format(x, collection)] *)
Definition format2 (a : string) (x : pyval) (b : string) (coll : string) : string :=
  a ++ Py.str x ++ b ++ coll.

(** The two lines every mutating method ends with:
    [send_request(method='POST', endpoint=self.schema_endpoint,
                  collection=collection, data=json.dumps(temp))]
    and [return res]. *)
Definition post_temp (self : Schema) (coll : string) (temp : loc) : M pyval :=
  body <- deref temp ;;
  res <- send_request self
           (mkRequest (Some "POST") (schema_endpoint self) coll
                      (Some (Py.json_dumps (PDict body)))) ;;
  ret res.

(** [temp = {verb: dict(d)}]: the copy is a new object, and so is [temp]. *)
Definition wrap_copy (verb : string) (d : pydict) : M loc :=
  copy <- alloc d ;;
  inner <- deref copy ;;
  alloc [(verb, PDict inner)].

Definition get_schema_fields (self : Schema) (coll : string) : M pyval :=
  res <- send_request self (mkRequest None "schema/fields" coll None) ;;
  ret res.

Definition get_schema_copyfields (self : Schema) (coll : string) : M pyval :=
  res <- send_request self (mkRequest None "schema/copyfields" coll None) ;;
  lift (getitem res "copyFields").

Definition get_schema_field_types (self : Schema) (coll : string) : M pyval :=
  res <- send_request self (mkRequest None "schema/fieldtypes" coll None) ;;
  ret res.

(** [True if name in [field['name'] for field in fields] else False] *)
Definition name_in_records (name : pyval) (fields : pyval) : result bool :=
  match iter fields with
  | Ok items =>
      match comprehension (fun field => getitem field "name") items with
      | Ok names => Ok (if list_in name names then true else false)
      | Raise e => Raise e
      end
  | Raise e => Raise e
  end.

Definition does_field_exist (self : Schema) (coll : string) (field_name : pyval)
  : M bool :=
  schema <- get_schema_fields self coll ;;
  fields <- lift (getitem schema "fields") ;;
  lift (name_in_records field_name fields).

Definition does_field_type_exist (self : Schema) (coll : string)
  (field_type_name : pyval) : M bool :=
  schema_types <- get_schema_field_types self coll ;;
  types <- lift (getitem schema_types "fieldTypes") ;;
  lift (name_in_records field_type_name types).

(** The loop [for field in items: if name == field['name']: return field];
    [Ok None] when the loop runs to its end. *)
Fixpoint search_by_name (name : pyval) (items : list pyval)
  : result (option pyval) :=
  match items with
  | [] => Ok None
  | field :: rest =>
      match getitem field "name" with
      | Ok n => if Py.eq name n then Ok (Some field) else search_by_name name rest
      | Raise e => Raise e
      end
  end.

Definition get_field (self : Schema) (coll : string) (field_name : pyval)
  : M pyval :=
  schema <- get_schema_fields self coll ;;
  fields <- lift (getitem schema "fieldTypes") ;;
  items <- lift (iter fields) ;;
  found <- lift (search_by_name field_name items) ;;
  match found with
  | Some field => ret field
  | None =>
      raise (ValueError (format2 "Field " field_name
                           " Does Not Exists in Solr Collection " coll))
  end.

Definition get_field_type (self : Schema) (coll : string)
  (field_type_name : pyval) : M pyval :=
  schema_types <- get_schema_field_types self coll ;;
  types <- lift (getitem schema_types "fieldTypes") ;;
  items <- lift (iter types) ;;
  found <- lift (search_by_name field_type_name items) ;;
  match found with
  | Some field => ret field
  | None =>
      raise (ValueError (format2 "Field Type " field_type_name
                           " Does Not Exists in Solr Collection " coll))
  end.

Definition create_field (self : Schema) (coll : string) (field_dict : loc)
  : M pyval :=
  d <- deref field_dict ;;
  name <- lift (dict_getitem d "name") ;;
  present <- does_field_exist self coll name ;;
  if present then
    raise (ValueError (format2 "Field " name
                         " Already Exists in Solr Collection " coll))
  else
    temp <- wrap_copy "add-field" d ;;
    post_temp self coll temp.

Definition replace_field (self : Schema) (coll : string) (field_dict : loc)
  : M pyval :=
  d <- deref field_dict ;;
  name <- lift (dict_getitem d "name") ;;
  present <- does_field_exist self coll name ;;
  if negb present then
    raise (ValueError (format2 "Field " name
                         " does not exists in Solr Collection " coll))
  else
    temp <- wrap_copy "replace-field" d ;;
    post_temp self coll temp.

Definition delete_field (self : Schema) (coll : string) (field_name : pyval)
  : M pyval :=
  present <- does_field_exist self coll field_name ;;
  if negb present then
    raise (ValueError (format2 "Field " field_name
                         " Doesn't Exists in Solr Collection " coll))
  else
    inner <- alloc [("name", field_name)] ;;
    d <- deref inner ;;
    temp <- alloc [("delete-field", PDict d)] ;;
    post_temp self coll temp.

(** The loop of [does_copy_field_exist]; [and] looks at [field['dest']]
    only when the sources are equal. *)
Fixpoint search_copy_field (source dest : pyval) (items : list pyval)
  : result bool :=
  match items with
  | [] => Ok false
  | field :: rest =>
      match getitem field "source" with
      | Ok s =>
          if Py.eq s source then
            match getitem field "dest" with
            | Ok d =>
                if Py.eq d dest then Ok true
                else search_copy_field source dest rest
            | Raise e => Raise e
            end
          else search_copy_field source dest rest
      | Raise e => Raise e
      end
  end.

Definition does_copy_field_exist (self : Schema) (coll : string)
  (source_field_name dest_field_name : pyval) : M bool :=
  copy_fields <- get_schema_copyfields self coll ;;
  items <- lift (iter copy_fields) ;;
  lift (search_copy_field source_field_name dest_field_name items).

Definition create_copy_field (self : Schema) (coll : string) (copy_dict : loc)
  : M pyval :=
  d <- deref copy_dict ;;
  temp <- wrap_copy "add-copy-field" d ;;
  post_temp self coll temp.

Definition delete_copy_field (self : Schema) (coll : string) (copy_dict : loc)
  : M pyval :=
  d <- deref copy_dict ;;
  (if devel self then emit DEBUG ("Deleting " ++ Py.str (PDict d)) else ret tt) ;;;
  copyfields <- get_schema_copyfields self coll ;;
  found <- lift (dict_in d copyfields) ;;
  (if negb found
   then emit INFO ("Fieldset not in Solr Copy Fields: " ++ Py.str (PDict d))
   else ret tt) ;;;
  temp <- wrap_copy "delete-copy-field" d ;;
  post_temp self coll temp.

Definition create_field_type (self : Schema) (coll : string)
  (field_type_dict : loc) : M pyval :=
  d <- deref field_type_dict ;;
  name <- lift (dict_getitem d "name") ;;
  present <- does_field_type_exist self coll name ;;
  if present then
    raise (ValueError (format2 "Field Type " name
                         " Already Exists in Solr Collection " coll))
  else
    temp <- wrap_copy "add-field-type" d ;;
    post_temp self coll temp.

Definition replace_field_type (self : Schema) (coll : string)
  (field_type_dict : loc) : M pyval :=
  d <- deref field_type_dict ;;
  name <- lift (dict_getitem d "name") ;;
  present <- does_field_type_exist self coll name ;;
  if negb present then
    raise (ValueError (format2 "Field Type " name
                         " does not exists in Solr Collection " coll))
  else
    temp <- wrap_copy "replace-field-type" d ;;
    post_temp self coll temp.

(** ** Calls of the mutating methods *)

Inductive Call : Type :=
| CreateField (coll : string) (field_dict : loc)
| ReplaceField (coll : string) (field_dict : loc)
| DeleteField (coll : string) (field_name : pyval)
| CreateFieldType (coll : string) (field_type_dict : loc)
| ReplaceFieldType (coll : string) (field_type_dict : loc)
| CreateCopyField (coll : string) (copy_dict : loc)
| DeleteCopyField (coll : string) (copy_dict : loc).

Definition run (self : Schema) (c : Call) : M pyval :=
  match c with
  | CreateField coll l => create_field self coll l
  | ReplaceField coll l => replace_field self coll l
  | DeleteField coll n => delete_field self coll n
  | CreateFieldType coll l => create_field_type self coll l
  | ReplaceFieldType coll l => replace_field_type self coll l
  | CreateCopyField coll l => create_copy_field self coll l
  | DeleteCopyField coll l => delete_copy_field self coll l
  end.

(** ** Vocabulary of the statements *)

(** The requests of the three read operations. *)
Definition fields_request (coll : string) : Request :=
  mkRequest None "schema/fields" coll None.

Definition field_types_request (coll : string) : Request :=
  mkRequest None "schema/fieldtypes" coll None.

Definition copyfields_request (coll : string) : Request :=
  mkRequest None "schema/copyfields" coll None.

(** A mutating transport call: one made with [method='POST']. *)
Definition is_post (r : Request) : bool :=
  match method r with
  | Some m => String.eqb m "POST"
  | None => false
  end.

(** The POST request to [schema/] whose body is the single-key mapping
    [{verb: inner}]. *)
Definition patch (coll verb : string) (inner : pydict) : Request :=
  mkRequest (Some "POST") "schema/" coll
            (Some (Py.json_dumps (PDict [(verb, PDict inner)]))).

(** The patch request the interface contract gives for each mutating call:
    the verb of the operation around the caller's mapping, and for
    [deleteField] around [{"name": field_name}]. *)
Definition patch_request (c : Call) (w : World) : Request :=
  match c with
  | CreateField coll l => patch coll "add-field" (cells w l)
  | ReplaceField coll l => patch coll "replace-field" (cells w l)
  | DeleteField coll n => patch coll "delete-field" [("name", n)]
  | CreateFieldType coll l => patch coll "add-field-type" (cells w l)
  | ReplaceFieldType coll l => patch coll "replace-field-type" (cells w l)
  | CreateCopyField coll l => patch coll "add-copy-field" (cells w l)
  | DeleteCopyField coll l => patch coll "delete-copy-field" (cells w l)
  end.

(** The calls that check a precondition before they send anything. *)
Definition guarded (c : Call) : bool :=
  match c with
  | CreateCopyField _ _ | DeleteCopyField _ _ => false
  | _ => true
  end.

(** [s] occurs in [t]. *)
Fixpoint mentions (s t : string) : bool :=
  String.prefix s t ||
  match t with
  | EmptyString => false
  | String _ rest => mentions s rest
  end.

(** The world after the requests [reqs] have been sent. *)
Definition sent (w : World) (reqs : list Request) : World :=
  mkWorld (trace w +++ reqs) (log w) (cells w) (next w).

(** [r >>= f] on results. *)
Definition and_then {A B : Type} (r : result A) (f : A -> result B) : result B :=
  match r with
  | Ok a => f a
  | Raise e => Raise e
  end.

(** The world after [temp = {verb: dict(d)}]. *)
Definition wrapped (w : World) (verb : string) (d : pydict) : World :=
  mkWorld (trace w) (log w)
          (fun l => if Nat.eqb l (S (next w)) then [(verb, PDict d)]
                    else if Nat.eqb l (next w) then d else cells w l)
          (S (S (next w))).

(** What a method with a precondition comes to, once the existence query
    [q] has given [present]: the exception of the query, the [ValueError]
    with [msg] when [present] is [fail_when], and otherwise the patch
    request with [verb] around [d], answered by the transport. *)
Definition checked (self : Schema) (coll verb : string) (d : pydict)
  (q : Request) (present : result bool) (fail_when : bool) (msg : string)
  (w : World) : result pyval * World :=
  match present with
  | Raise e => (Raise e, sent w [q])
  | Ok b =>
      if Bool.eqb b fail_when then (Raise (ValueError msg), sent w [q])
      else
        (of_reply (transport (solr self) (trace w +++ [q]) (patch coll verb d)),
         sent (wrapped (sent w [q]) verb d) [patch coll verb d])
  end.

(** The records [delete_copy_field] hands to the logger when the snapshot
    is the list [snap]. *)
Definition delete_copy_log (self : Schema) (d : pydict) (snap : list pyval)
  : list LogRecord :=
  List.app
    (if devel self then [(DEBUG, "Deleting " ++ Py.str (PDict d))] else [])
    (if List.existsb (fun e => Py.eq e (PDict d)) snap then []
     else [(INFO, "Fieldset not in Solr Copy Fields: " ++ Py.str (PDict d))]).

(** [w'] keeps every object of [w]: the store has only grown. *)
Definition keeps (w w' : World) : Prop :=
  next w <= next w' /\ forall l : loc, l < next w -> cells w' l = cells w l.

(** A computation that writes to no object that exists when it starts. *)
Definition read_only {A : Type} (m : M A) : Prop :=
  forall w : World, keeps w (snd (m w)).

(** The record [r] has the entry [k]. *)
Definition has_key (k : string) (r : pyval) : Prop :=
  exists v, getitem r k = Ok v.

(** The record [r] has a [name] entry equal to [n]. *)
Definition named (n : pyval) (r : pyval) : Prop :=
  exists v, getitem r "name" = Ok v /\ Py.eq v n = true.

(** The record [r] has [source] equal to [src] and [dest] equal to [dst]. *)
Definition copies (src dst : pyval) (r : pyval) : Prop :=
  exists a b, getitem r "source" = Ok a /\ getitem r "dest" = Ok b /\
              Py.eq a src = true /\ Py.eq b dst = true.

(** A computation that hands nothing to the logger. *)
Definition quiet {A : Type} (m : M A) : Prop :=
  forall w : World, log (snd (m w)) = log w.

(** The exceptions that come from the transport. *)
Definition transport_error (e : exn) : bool :=
  match e with
  | TransportError _ => true
  | _ => false
  end.

(** The query a mutating call starts with, for the calls that make one. *)
Definition existence_query (c : Call) : option Request :=
  match c with
  | CreateField coll _ | ReplaceField coll _ | DeleteField coll _ =>
      Some (fields_request coll)
  | CreateFieldType coll _ | ReplaceFieldType coll _ =>
      Some (field_types_request coll)
  | DeleteCopyField coll _ => Some (copyfields_request coll)
  | CreateCopyField _ _ => None
  end.

(** The call reaches its query: the calls that take a mapping and look
    its [name] up first need the entry to be there. *)
Definition reaches_query (c : Call) (w : World) : bool :=
  match c with
  | CreateField _ l | ReplaceField _ l
  | CreateFieldType _ l | ReplaceFieldType _ l =>
      match Py.dict_get "name" (cells w l) with
      | Some _ => true
      | None => false
      end
  | DeleteField _ _ | DeleteCopyField _ _ => true
  | CreateCopyField _ _ => false
  end.

(** A value whose iteration goes through nothing. *)
Definition empty_container (v : pyval) : bool :=
  match v with
  | PList [] => true
  | PDict [] => true
  | PStr EmptyString => true
  | _ => false
  end.

(** A copy rule with its two entries and nothing else, in either order. *)
Definition plain_rule (r : pyval) : Prop :=
  exists a b, r = PDict [("source", a); ("dest", b)] \/
              r = PDict [("dest", b); ("source", a)].

(** The verb, the wrapped items and the collection of a mutating call. *)
Definition patch_verb (c : Call) : string :=
  match c with
  | CreateField _ _ => "add-field"
  | ReplaceField _ _ => "replace-field"
  | DeleteField _ _ => "delete-field"
  | CreateFieldType _ _ => "add-field-type"
  | ReplaceFieldType _ _ => "replace-field-type"
  | CreateCopyField _ _ => "add-copy-field"
  | DeleteCopyField _ _ => "delete-copy-field"
  end.

Definition patch_inner (c : Call) (w : World) : pydict :=
  match c with
  | DeleteField _ n => [("name", n)]
  | CreateField _ l | ReplaceField _ l
  | CreateFieldType _ l | ReplaceFieldType _ l
  | CreateCopyField _ l | DeleteCopyField _ l => cells w l
  end.

Definition call_collection (c : Call) : string :=
  match c with
  | CreateField coll _ | ReplaceField coll _ | DeleteField coll _
  | CreateFieldType coll _ | ReplaceFieldType coll _
  | CreateCopyField coll _ | DeleteCopyField coll _ => coll
  end.

(** [s] between double quotes. *)
Definition quoted (s : string) : string :=
  String Py.dquote (s ++ Py.chr Py.dquote).

(** The text of one item of a JSON object. *)
Definition json_item (kv : string * pyval) : string :=
  Py.json_str (fst kv) ++ ": " ++ Py.json_dumps (snd kv).

(** The queries a mutating call sends before its patch request: the one
    it starts with, when it has one and gets to it. *)
Definition queries (c : Call) (w : World) : list Request :=
  match existence_query c with
  | Some q => if reaches_query c w then [q] else []
  | None => []
  end.

(** The call gets past its checks: the mapping has its name and the
    existence query of the method answers what the method asks for (false
    for the create methods, true for replace and delete);
    [create_copy_field] checks nothing; [delete_copy_field] needs the
    copy-field snapshot to come back as a list. *)
Definition passes (self : Schema) (c : Call) (w : World) : bool :=
  let answer (present : result bool) (wanted : bool) : bool :=
    match present with
    | Ok b => Bool.eqb b wanted
    | Raise _ => false
    end in
  match c with
  | CreateField coll l =>
      match Py.dict_get "name" (cells w l) with
      | Some name => answer (fst (does_field_exist self coll name w)) false
      | None => false
      end
  | ReplaceField coll l =>
      match Py.dict_get "name" (cells w l) with
      | Some name => answer (fst (does_field_exist self coll name w)) true
      | None => false
      end
  | DeleteField coll n => answer (fst (does_field_exist self coll n w)) true
  | CreateFieldType coll l =>
      match Py.dict_get "name" (cells w l) with
      | Some name => answer (fst (does_field_type_exist self coll name w)) false
      | None => false
      end
  | ReplaceFieldType coll l =>
      match Py.dict_get "name" (cells w l) with
      | Some name => answer (fst (does_field_type_exist self coll name w)) true
      | None => false
      end
  | CreateCopyField _ _ => true
  | DeleteCopyField coll l =>
      match fst (get_schema_copyfields self coll w) with
      | Ok (PList _) => true
      | _ => false
      end
  end.

(** ** Scenarios *)

Module Scenario.

Definition sell_by : pydict :=
  [("name", PStr "sell-by"); ("type", PStr "tdate"); ("stored", PBool true)].

Definition id_field : pydict :=
  [("name", PStr "id"); ("type", PStr "string")].

Definition string_type : pydict :=
  [("name", PStr "string"); ("class", PStr "solr.StrField")].

Definition rule : pydict := [("source", PStr "title"); ("dest", PStr "text")].

Definition status_ok : pyval :=
  PDict [("responseHeader", PDict [("status", PInt 0)])].

(** A collection with one field, one field type and one copy rule, that
    answers every POST with a success header. *)
Definition server : Transport := fun _ req =>
  match method req with
  | Some _ => Response status_ok
  | None =>
      if String.eqb (endpoint req) "schema/fields" then
        Response (PDict [("fields", PList [PDict id_field])])
      else if String.eqb (endpoint req) "schema/fieldtypes" then
        Response (PDict [("fieldTypes", PList [PDict string_type])])
      else
        Response (PDict [("copyFields", PList [PDict rule])])
  end.

(** The same collection without its copy rule. *)
Definition server_no_rule : Transport := fun hist req =>
  if String.eqb (endpoint req) "schema/copyfields" then
    Response (PDict [("copyFields", PList [])])
  else server hist req.

(** A collection with no field at all. *)
Definition empty_server : Transport := fun _ req =>
  match method req with
  | Some _ => Response status_ok
  | None => Response (PDict [("fields", PList [])])
  end.

Definition docs : Schema := init (mkSolr server false).

(** The caller holds [sell_by] at reference 0, [id_field] at 1, [rule] at 2
    and [string_type] at 3. *)
Definition start : World :=
  mkWorld [] []
          (fun l => match l with
                    | 0 => sell_by
                    | 1 => id_field
                    | 2 => rule
                    | 3 => string_type
                    | _ => []
                    end)
          4.

End Scenario.

(** Further transports, for responses of other shapes. *)
Module Cases.

Definition text_type : pydict :=
  [("name", PStr "text_general"); ("class", PStr "solr.TextField")].

(** Answers every query with one mapping that has all three entries: two
    field types followed by a number, a field followed by a record without
    a name, a copy rule followed by [None]. *)
Definition mixed : Transport := fun _ req =>
  match method req with
  | Some _ => Response Scenario.status_ok
  | None =>
      Response
        (PDict [("fieldTypes",
                 PList [PDict Scenario.string_type; PDict text_type; PInt 7]);
                ("fields",
                 PList [PDict Scenario.id_field; PDict [("type", PStr "string")]]);
                ("copyFields", PList [PDict Scenario.rule; PNone])])
  end.

(** Answers every query with entries that are no lists. *)
Definition odd : Transport := fun _ req =>
  match method req with
  | Some _ => Response Scenario.status_ok
  | None =>
      Response (PDict [("fields", PDict []); ("fieldTypes", PStr "abc");
                       ("copyFields", PNone)])
  end.

(** A mapping with values of every kind. *)
Definition rich : pydict :=
  [("name", PStr ("a" ++ Py.chr Py.dquote ++ "b" ++ Py.chr Py.backslash ++ "c"));
   ("n", PInt (-12)); ("z", PInt 0); ("default", PNone);
   ("stored", PBool false); ("indexed", PBool true);
   ("tags", PList [PStr "x"; PList []; PDict []]);
   ("text", PStr ("line" ++ Py.chr (ascii_of_nat 10) ++ "break" ++
                  Py.chr (ascii_of_nat 9) ++ "tab" ++ Py.chr (ascii_of_nat 1) ++
                  Py.chr (ascii_of_nat 127) ++ Py.chr (ascii_of_nat 233)));
   ("attrs", PDict [("k", PList [PInt 1; PInt 2])])].

(** The caller holds [rich] at reference 0. *)
Definition start_rich : World :=
  mkWorld [] [] (fun l => match l with 0 => rich | _ => [] end) 1.

(** Fails on every request. *)
Definition down : Transport := fun _ _ => Failure "connection refused".

(** A collection that has no field until a POST has been sent, and the
    field [sell_by] from then on. *)
Definition remembering : Transport := fun hist req =>
  match method req with
  | Some _ => Response Scenario.status_ok
  | None =>
      if List.existsb is_post hist
      then Response (PDict [("fields", PList [PDict Scenario.sell_by])])
      else Response (PDict [("fields", PList [])])
  end.

End Cases.

(** * Properties *)

(** ** The steps of the methods *)

Ltac unfold_m :=
  unfold bind, lift, ret, raise, deref, alloc, emit, send_request in *.

Lemma send_request_eq (self : Schema) (req : Request) (w : World) :
  send_request self req w
  = (of_reply (transport (solr self) (trace w) req), sent w [req]).
Proof. reflexivity. Qed.

Lemma get_schema_fields_eq (self : Schema) (coll : string) (w : World) :
  get_schema_fields self coll w
  = (of_reply (transport (solr self) (trace w) (fields_request coll)),
     sent w [fields_request coll]).
Proof.
  unfold get_schema_fields, fields_request. unfold_m.
  destruct (transport _ _ _); reflexivity.
Qed.

Lemma get_schema_field_types_eq (self : Schema) (coll : string) (w : World) :
  get_schema_field_types self coll w
  = (of_reply (transport (solr self) (trace w) (field_types_request coll)),
     sent w [field_types_request coll]).
Proof.
  unfold get_schema_field_types, field_types_request. unfold_m.
  destruct (transport _ _ _); reflexivity.
Qed.

Lemma get_schema_copyfields_eq (self : Schema) (coll : string) (w : World) :
  get_schema_copyfields self coll w
  = (and_then (of_reply (transport (solr self) (trace w) (copyfields_request coll)))
              (fun res => getitem res "copyFields"),
     sent w [copyfields_request coll]).
Proof.
  unfold get_schema_copyfields, copyfields_request. unfold_m.
  destruct (transport _ _ _); reflexivity.
Qed.

Lemma does_field_exist_eq (self : Schema) (coll : string) (n : pyval) (w : World) :
  does_field_exist self coll n w
  = (and_then (of_reply (transport (solr self) (trace w) (fields_request coll)))
              (fun res => and_then (getitem res "fields") (name_in_records n)),
     sent w [fields_request coll]).
Proof.
  unfold does_field_exist. unfold bind at 1. rewrite get_schema_fields_eq.
  unfold_m. destruct (transport _ _ _) as [res|e]; simpl; [|reflexivity].
  destruct (getitem res "fields"); reflexivity.
Qed.

Lemma does_field_type_exist_eq (self : Schema) (coll : string) (n : pyval)
  (w : World) :
  does_field_type_exist self coll n w
  = (and_then (of_reply (transport (solr self) (trace w) (field_types_request coll)))
              (fun res => and_then (getitem res "fieldTypes") (name_in_records n)),
     sent w [field_types_request coll]).
Proof.
  unfold does_field_type_exist. unfold bind at 1.
  rewrite get_schema_field_types_eq.
  unfold_m. destruct (transport _ _ _) as [res|e]; simpl; [|reflexivity].
  destruct (getitem res "fieldTypes"); reflexivity.
Qed.

Lemma wrap_copy_eq (verb : string) (d : pydict) (w : World) :
  wrap_copy verb d w = (Ok (S (next w)), wrapped w verb d).
Proof.
  unfold wrap_copy. unfold_m. simpl. rewrite Nat.eqb_refl. reflexivity.
Qed.

(** Copying, wrapping and posting, as every mutating method does last. *)
Lemma wrap_post_eq (self : Schema) (coll verb : string) (d : pydict) (w : World) :
  schema_endpoint self = "schema/" ->
  bind (wrap_copy verb d) (post_temp self coll) w
  = (of_reply (transport (solr self) (trace w) (patch coll verb d)),
     sent (wrapped w verb d) [patch coll verb d]).
Proof.
  intros Hep. unfold bind at 1. rewrite wrap_copy_eq.
  unfold post_temp, patch. unfold_m. simpl. rewrite Nat.eqb_refl, Hep.
  destruct (transport _ _ _); reflexivity.
Qed.

Ltac guarded_eq Hname :=
  unfold bind at 1, deref; unfold bind at 1, lift; rewrite Hname;
  unfold bind at 1;
  first [rewrite does_field_exist_eq | rewrite does_field_type_exist_eq];
  simpl fst;
  destruct (and_then _ _) as [[|]|?]; simpl; try reflexivity;
  rewrite wrap_post_eq by assumption; reflexivity.

Section Guarded.

Variable self : Schema.
Hypothesis endpoint_fixed : schema_endpoint self = "schema/".
Variables (coll : string) (w : World).

Lemma create_field_eq (l : loc) (name : pyval) :
  dict_getitem (cells w l) "name" = Ok name ->
  create_field self coll l w
  = checked self coll "add-field" (cells w l) (fields_request coll)
            (fst (does_field_exist self coll name w)) true
            (format2 "Field " name " Already Exists in Solr Collection " coll) w.
Proof.
  intros Hname. unfold create_field. guarded_eq Hname.
Qed.

Lemma replace_field_eq (l : loc) (name : pyval) :
  dict_getitem (cells w l) "name" = Ok name ->
  replace_field self coll l w
  = checked self coll "replace-field" (cells w l) (fields_request coll)
            (fst (does_field_exist self coll name w)) false
            (format2 "Field " name " does not exists in Solr Collection " coll) w.
Proof.
  intros Hname. unfold replace_field. guarded_eq Hname.
Qed.

Lemma create_field_type_eq (l : loc) (name : pyval) :
  dict_getitem (cells w l) "name" = Ok name ->
  create_field_type self coll l w
  = checked self coll "add-field-type" (cells w l) (field_types_request coll)
            (fst (does_field_type_exist self coll name w)) true
            (format2 "Field Type " name
                     " Already Exists in Solr Collection " coll) w.
Proof.
  intros Hname. unfold create_field_type. guarded_eq Hname.
Qed.

Lemma replace_field_type_eq (l : loc) (name : pyval) :
  dict_getitem (cells w l) "name" = Ok name ->
  replace_field_type self coll l w
  = checked self coll "replace-field-type" (cells w l) (field_types_request coll)
            (fst (does_field_type_exist self coll name w)) false
            (format2 "Field Type " name
                     " does not exists in Solr Collection " coll) w.
Proof.
  intros Hname. unfold replace_field_type. guarded_eq Hname.
Qed.

(** Without a [name] entry the first subscript raises and nothing is sent. *)
Lemma no_name_eq (l : loc) :
  Py.dict_get "name" (cells w l) = None ->
  create_field self coll l w = (Raise (KeyError "name"), w) /\
  replace_field self coll l w = (Raise (KeyError "name"), w) /\
  create_field_type self coll l w = (Raise (KeyError "name"), w) /\
  replace_field_type self coll l w = (Raise (KeyError "name"), w).
Proof.
  intros Hnone.
  unfold create_field, replace_field, create_field_type, replace_field_type.
  unfold bind, deref, lift, dict_getitem. rewrite Hnone. repeat split.
Qed.

Lemma delete_field_eq (n : pyval) :
  delete_field self coll n w
  = checked self coll "delete-field" [("name", n)] (fields_request coll)
            (fst (does_field_exist self coll n w)) false
            (format2 "Field " n " Doesn't Exists in Solr Collection " coll) w.
Proof.
  unfold delete_field.
  unfold bind at 1. rewrite does_field_exist_eq. simpl fst.
  destruct (and_then _ _) as [[|]|e]; simpl; try reflexivity.
  unfold post_temp, patch. unfold_m. simpl.
  rewrite !Nat.eqb_refl, endpoint_fixed.
  destruct (transport _ _ _); reflexivity.
Qed.

Lemma create_copy_field_eq (l : loc) :
  create_copy_field self coll l w
  = (of_reply (transport (solr self) (trace w)
                         (patch coll "add-copy-field" (cells w l))),
     sent (wrapped w "add-copy-field" (cells w l))
          [patch coll "add-copy-field" (cells w l)]).
Proof.
  unfold create_copy_field. unfold bind at 1, deref.
  rewrite wrap_post_eq by assumption. reflexivity.
Qed.

End Guarded.

Lemma init_endpoint (s : Solr) : schema_endpoint (init s) = "schema/".
Proof. reflexivity. Qed.

Lemma delete_copy_field_eq (self : Schema) (coll : string) (l : loc) (w : World)
  (res : pyval) (snap : list pyval) :
  schema_endpoint self = "schema/" ->
  transport (solr self) (trace w) (copyfields_request coll) = Response res ->
  getitem res "copyFields" = Ok (PList snap) ->
  let d := cells w l in
  let q := copyfields_request coll in
  let req := patch coll "delete-copy-field" d in
  delete_copy_field self coll l w
  = (of_reply (transport (solr self) (trace w +++ [q]) req),
     mkWorld (trace w +++ [q; req])
             (log w +++ delete_copy_log self d snap)
             (cells (wrapped w "delete-copy-field" d))
             (S (S (next w)))).
Proof.
  intros Hep Hget Hsnap d q req. unfold delete_copy_field.
  unfold bind at 1, deref. fold d.
  unfold bind at 1.
  assert (Hstep : forall w1, trace w1 = trace w -> cells w1 = cells w ->
            next w1 = next w ->
            bind (get_schema_copyfields self coll)
              (fun copyfields =>
                 bind (lift (dict_in d copyfields))
                   (fun found =>
                      bind (if negb found
                            then emit INFO ("Fieldset not in Solr Copy Fields: "
                                            ++ Py.str (PDict d))
                            else ret tt)
                        (fun _ => bind (wrap_copy "delete-copy-field" d)
                                    (post_temp self coll)))) w1
            = (of_reply (transport (solr self) (trace w +++ [q]) req),
               mkWorld (trace w +++ [q; req])
                 (log w1 +++
                  (if List.existsb (fun e => Py.eq e (PDict d)) snap then []
                   else [(INFO, "Fieldset not in Solr Copy Fields: "
                                ++ Py.str (PDict d))]))
                 (cells (wrapped w "delete-copy-field" d))
                 (S (S (next w))))).
  { intros w1 Ht Hc Hn. unfold bind at 1.
    rewrite get_schema_copyfields_eq. rewrite Ht. rewrite Hget.
    simpl and_then. rewrite Hsnap.
    unfold bind at 1, lift. simpl dict_in.
    destruct (List.existsb _ snap); simpl negb; cbv iota;
      unfold bind at 1; unfold emit, ret; rewrite wrap_post_eq by assumption;
      unfold sent, wrapped; cbn [trace log cells next];
      rewrite Ht, Hc, Hn, <- ?app_assoc, ?app_nil_r; reflexivity. }
  unfold delete_copy_log.
  destruct (devel self); unfold emit, ret.
  - rewrite Hstep by reflexivity. simpl log. rewrite <- app_assoc. reflexivity.
  - rewrite Hstep by reflexivity. reflexivity.
Qed.

(** ** Copy-field rules *)

(** C5. With the copy-field snapshot fetched, whatever list it is and
    whether it holds the rule or not, [delete_copy_field] sends the
    snapshot query and then exactly one delete-copy-field POST, and its
    outcome is the transport's answer to that POST; it hands the logger the
    diagnostic when the rule is not in the snapshot. *)
Theorem delete_copy_field_always_posts (s : Solr) (coll : string) (l : loc)
  (w : World) (res : pyval) (snap : list pyval) :
  transport s (trace w) (copyfields_request coll) = Response res ->
  getitem res "copyFields" = Ok (PList snap) ->
  let d := cells w l in
  let q := copyfields_request coll in
  let req := patch coll "delete-copy-field" d in
  let out := delete_copy_field (init s) coll l w in
  fst out = of_reply (transport s (trace w +++ [q]) req) /\
  trace (snd out) = (trace w +++ [q; req]) /\
  List.filter is_post [q; req] = [req] /\
  log (snd out) = (log w +++ delete_copy_log (init s) d snap) /\
  (List.existsb (fun e => Py.eq e (PDict d)) snap = false ->
   In (INFO, "Fieldset not in Solr Copy Fields: " ++ Py.str (PDict d))
      (log (snd out))).
Proof.
  intros Hget Hsnap d q req out. subst out.
  rewrite (delete_copy_field_eq (init s) coll l w res snap
             (init_endpoint s) Hget Hsnap).
  fold d q req. simpl. repeat split.
  intros Habs. apply in_or_app. right. unfold delete_copy_log.
  apply in_or_app. right. rewrite Habs. left. reflexivity.
Qed.

(** C7. [create_copy_field] sends one add-copy-field POST and nothing
    else, whatever the transport would answer to a query: no request goes
    out before the POST, the log is left alone and the outcome is the
    transport's answer. *)
Theorem create_copy_field_unconditional (s : Solr) (coll : string) (l : loc)
  (w : World) :
  let req := patch coll "add-copy-field" (cells w l) in
  let out := create_copy_field (init s) coll l w in
  fst out = of_reply (transport s (trace w) req) /\
  trace (snd out) = (trace w +++ [req]) /\
  is_post req = true /\
  log (snd out) = log w.
Proof.
  intros req out. subst out.
  rewrite (create_copy_field_eq (init s) (init_endpoint s)).
  fold req. simpl. repeat split.
Qed.

(** C10. Two runs of [delete_copy_field] from the same world, against
    transports that answer the snapshot query with different lists and the
    POST alike, send the same requests and end with the same outcome. *)
Theorem delete_copy_field_snapshot_independent (s1 s2 : Solr) (coll : string)
  (l : loc) (w : World) (res1 res2 : pyval) (snap1 snap2 : list pyval) :
  let q := copyfields_request coll in
  let req := patch coll "delete-copy-field" (cells w l) in
  transport s1 (trace w) q = Response res1 ->
  getitem res1 "copyFields" = Ok (PList snap1) ->
  transport s2 (trace w) q = Response res2 ->
  getitem res2 "copyFields" = Ok (PList snap2) ->
  transport s1 (trace w +++ [q]) req = transport s2 (trace w +++ [q]) req ->
  let out1 := delete_copy_field (init s1) coll l w in
  let out2 := delete_copy_field (init s2) coll l w in
  fst out1 = fst out2 /\
  trace (snd out1) = trace (snd out2) /\
  List.filter is_post (trace (snd out1)) = (List.filter is_post (trace w) +++ [req]).
Proof.
  intros q req H1 G1 H2 G2 Hpost out1 out2. subst out1 out2.
  rewrite (delete_copy_field_eq (init s1) coll l w res1 snap1
             (init_endpoint s1) H1 G1).
  rewrite (delete_copy_field_eq (init s2) coll l w res2 snap2
             (init_endpoint s2) H2 G2).
  fold q req. simpl fst. simpl snd. simpl trace.
  rewrite Hpost. repeat split.
  rewrite List.filter_app. reflexivity.
Qed.

(** ** The caller's objects *)

Lemma keeps_refl (w : World) : keeps w w.
Proof. split; [lia | reflexivity]. Qed.

Lemma keeps_trans (w1 w2 w3 : World) : keeps w1 w2 -> keeps w2 w3 -> keeps w1 w3.
Proof.
  intros [Hn1 Hc1] [Hn2 Hc2]. split; [lia|].
  intros l Hl. rewrite Hc2 by lia. apply Hc1, Hl.
Qed.

Lemma read_only_bind {A B : Type} (m : M A) (f : A -> M B) :
  read_only m -> (forall a, read_only (f a)) -> read_only (bind m f).
Proof.
  intros Hm Hf w. unfold bind. specialize (Hm w).
  destruct (m w) as [[a|e] w1]; simpl in *; [|exact Hm].
  eapply keeps_trans; [exact Hm | apply Hf].
Qed.

Lemma read_only_ret {A : Type} (a : A) : read_only (ret a).
Proof. intros w. apply keeps_refl. Qed.

Lemma read_only_raise {A : Type} (e : exn) : read_only (@raise A e).
Proof. intros w. apply keeps_refl. Qed.

Lemma read_only_lift {A : Type} (r : result A) : read_only (lift r).
Proof. intros w. apply keeps_refl. Qed.

Lemma read_only_deref (l : loc) : read_only (deref l).
Proof. intros w. apply keeps_refl. Qed.

Lemma read_only_emit (lv : level) (msg : string) : read_only (emit lv msg).
Proof. intros w. split; simpl; [lia | reflexivity]. Qed.

Lemma read_only_send_request (self : Schema) (req : Request) :
  read_only (send_request self req).
Proof. intros w. split; simpl; [lia | reflexivity]. Qed.

(** A new object takes a reference that was not in use. *)
Lemma read_only_alloc (d : pydict) : read_only (alloc d).
Proof.
  intros w. split; simpl; [lia|].
  intros l Hl. destruct (Nat.eqb_spec l (next w)); [lia | reflexivity].
Qed.

Lemma read_only_if {A : Type} (b : bool) (m1 m2 : M A) :
  read_only m1 -> read_only m2 -> read_only (if b then m1 else m2).
Proof. destruct b; auto. Qed.

Create HintDb frame.

#[local] Hint Resolve read_only_ret read_only_raise read_only_lift
  read_only_deref read_only_emit read_only_send_request read_only_alloc
  : frame.

Ltac frame :=
  repeat first
    [ apply read_only_bind; [|intros ?]
    | apply read_only_if
    | match goal with
      | |- read_only (match ?x with _ => _ end) => destruct x
      end
    | solve [auto with frame] ].

Lemma read_only_post_temp (self : Schema) (coll : string) (temp : loc) :
  read_only (post_temp self coll temp).
Proof. unfold post_temp. frame. Qed.

Lemma read_only_wrap_copy (verb : string) (d : pydict) :
  read_only (wrap_copy verb d).
Proof. unfold wrap_copy. frame. Qed.

Lemma read_only_does_field_exist (self : Schema) (coll : string) (n : pyval) :
  read_only (does_field_exist self coll n).
Proof. unfold does_field_exist, get_schema_fields. frame. Qed.

Lemma read_only_does_field_type_exist (self : Schema) (coll : string) (n : pyval) :
  read_only (does_field_type_exist self coll n).
Proof. unfold does_field_type_exist, get_schema_field_types. frame. Qed.

#[local] Hint Resolve read_only_post_temp read_only_wrap_copy
  read_only_does_field_exist read_only_does_field_type_exist : frame.

Lemma read_only_run (self : Schema) (c : Call) : read_only (run self c).
Proof.
  destruct c; simpl;
    unfold create_field, replace_field, delete_field, create_field_type,
      replace_field_type, create_copy_field, delete_copy_field,
      get_schema_copyfields;
    frame.
Qed.

(** C9. Every dictionary the caller holds when a mutating method is
    called, the argument among them, has the same items when the method has
    returned or raised: the methods write to new objects only. *)
Theorem caller_mapping_unchanged (s : Solr) (c : Call) (w : World) (l : loc) :
  l < next w ->
  cells (snd (run (init s) c w)) l = cells w l.
Proof.
  intros Hl. destruct (read_only_run (init s) c w) as [_ Hcells].
  apply Hcells, Hl.
Qed.

(** ** Requests sent by the mutating methods *)

Lemma delete_copy_field_trace (self : Schema) (coll : string) (l : loc)
  (w : World) :
  schema_endpoint self = "schema/" ->
  let q := copyfields_request coll in
  let req := patch coll "delete-copy-field" (cells w l) in
  let out := delete_copy_field self coll l w in
  (exists e, fst out = Raise e /\ trace (snd out) = trace w +++ [q]) \/
  trace (snd out) = trace w +++ [q; req].
Proof.
  intros Hep q req out. subst out.
  destruct (transport (solr self) (trace w) q) as [res|e] eqn:Hget.
  - destruct (getitem res "copyFields") as [snap|e] eqn:Hsnap.
    + destruct snap as [| | | |snap|];
        try (left; exists TypeError;
             unfold delete_copy_field, get_schema_copyfields; unfold_m;
             destruct (devel self); cbn [trace log cells next];
             fold (copyfields_request coll); fold q; rewrite Hget;
             cbn [of_reply]; rewrite Hsnap; split; reflexivity).
      right. rewrite (delete_copy_field_eq self coll l w res snap Hep Hget Hsnap).
      reflexivity.
    + left. exists e.
      unfold delete_copy_field, get_schema_copyfields; unfold_m;
        destruct (devel self); cbn [trace log cells next];
        fold (copyfields_request coll); fold q; rewrite Hget;
        cbn [of_reply]; rewrite Hsnap; split; reflexivity.
  - left. exists (TransportError e).
    unfold delete_copy_field, get_schema_copyfields; unfold_m;
      destruct (devel self); cbn [trace log cells next];
      fold (copyfields_request coll); fold q; rewrite Hget;
      split; reflexivity.
Qed.

(** The existence queries never raise [ValueError]. *)
Lemma getitem_no_ValueError (v : pyval) (k m : string) :
  getitem v k <> Raise (ValueError m).
Proof.
  destruct v; simpl; try discriminate.
  unfold dict_getitem. destruct (Py.dict_get k d); discriminate.
Qed.

Lemma comprehension_raise {A B : Type} (f : A -> result B) (l : list A) (e : exn) :
  comprehension f l = Raise e -> exists x, In x l /\ f x = Raise e.
Proof.
  induction l as [|x rest IH]; simpl; [discriminate|].
  destruct (f x) as [y|e'] eqn:Hx.
  - destruct (comprehension f rest) as [ys|e'']; [discriminate|].
    intros H. injection H as ->.
    destruct (IH eq_refl) as (x' & Hin & Hx'). eauto.
  - intros H. injection H as ->. eauto.
Qed.

Lemma name_in_records_no_ValueError (n fields : pyval) (m : string) :
  name_in_records n fields <> Raise (ValueError m).
Proof.
  unfold name_in_records.
  destruct (iter fields) as [items|e] eqn:Hiter.
  - destruct (comprehension _ items) as [names|e] eqn:Hc; [discriminate|].
    intros H. injection H as ->.
    apply comprehension_raise in Hc. destruct Hc as (x & _ & Hx).
    exact (getitem_no_ValueError _ _ _ Hx).
  - destruct fields; simpl in Hiter; try discriminate; congruence.
Qed.

Lemma existence_no_ValueError (r : reply) (key : string) (n : pyval) (m : string) :
  and_then (of_reply r)
           (fun res => and_then (getitem res key) (name_in_records n))
  <> Raise (ValueError m).
Proof.
  destruct r as [res|e]; simpl; [|discriminate].
  destruct (getitem res key) as [v|e] eqn:Hg; simpl.
  - apply name_in_records_no_ValueError.
  - intros H. injection H as ->. exact (getitem_no_ValueError _ _ _ Hg).
Qed.

Lemma does_field_exist_no_ValueError (self : Schema) (coll : string) (n : pyval)
  (w : World) (m : string) :
  fst (does_field_exist self coll n w) <> Raise (ValueError m).
Proof. rewrite does_field_exist_eq. apply existence_no_ValueError. Qed.

Lemma does_field_type_exist_no_ValueError (self : Schema) (coll : string)
  (n : pyval) (w : World) (m : string) :
  fst (does_field_type_exist self coll n w) <> Raise (ValueError m).
Proof. rewrite does_field_type_exist_eq. apply existence_no_ValueError. Qed.

Section Checked.

Variables (self : Schema) (coll verb : string) (d : pydict) (q : Request).
Variables (present : result bool) (fail_when : bool) (msg : string) (w : World).

Local Abbreviation out := (checked self coll verb d q present fail_when msg w).

(** A [ValueError] comes from the precondition alone, with the query as the
    only request sent. *)
Lemma checked_ValueError (m : string) :
  (forall m', present <> Raise (ValueError m')) ->
  fst out = Raise (ValueError m) ->
  present = Ok fail_when /\ m = msg /\ trace (snd out) = trace w +++ [q].
Proof.
  intros Hquery. unfold checked. destruct present as [b|e]; simpl.
  - destruct (Bool.eqb b fail_when) eqn:Hb; simpl.
    + intros H. assert (Hm : m = msg) by congruence.
      apply Bool.eqb_prop in Hb. rewrite Hb, Hm. auto.
    + destruct (transport _ _ _); simpl; discriminate.
  - intros H. exfalso. apply (Hquery m). congruence.
Qed.

Lemma checked_fails :
  present = Ok fail_when ->
  out = (Raise (ValueError msg), sent w [q]).
Proof.
  intros ->. unfold checked. rewrite Bool.eqb_reflx. reflexivity.
Qed.

Lemma checked_iff :
  (forall m', present <> Raise (ValueError m')) ->
  (exists m, fst out = Raise (ValueError m)) <-> present = Ok fail_when.
Proof.
  intros Hquery. split.
  - intros (m & Hm). apply (checked_ValueError m Hquery Hm).
  - intros Hp. exists msg. rewrite (checked_fails Hp). reflexivity.
Qed.

Lemma checked_passes :
  present = Ok (negb fail_when) ->
  fst out = of_reply (transport (solr self) (trace w +++ [q]) (patch coll verb d)) /\
  trace (snd out) = trace w +++ [q; patch coll verb d].
Proof.
  intros ->. unfold checked.
  destruct fail_when; simpl; rewrite <- app_assoc; split; reflexivity.
Qed.

Lemma checked_shape :
  trace (snd out) = trace w +++ [q] +++ [patch coll verb d] \/
  (trace (snd out) = trace w +++ [q] /\ exists e, fst out = Raise e).
Proof.
  unfold checked. destruct present as [b|e]; simpl.
  - destruct (Bool.eqb b fail_when); simpl.
    + right. eauto.
    + left. rewrite <- app_assoc. reflexivity.
  - right. eauto.
Qed.

End Checked.

(** Every mutating call either stops at its first subscript, or is a
    checked patch, or is one of the two calls on copy rules. *)
Lemma run_guarded (s : Solr) (c : Call) (w : World) :
  guarded c = true ->
  run (init s) c w = (Raise (KeyError "name"), w) \/
  exists coll verb d q present fail_when msg,
    run (init s) c w = checked (init s) coll verb d q present fail_when msg w /\
    patch_request c w = patch coll verb d /\
    is_post q = false /\
    (forall m, present <> Raise (ValueError m)).
Proof.
  intros Hg.
  destruct c as [coll l|coll l|coll n|coll l|coll l|coll l|coll l];
    try discriminate Hg; simpl run.
  3: { right. rewrite (delete_field_eq (init s) (init_endpoint s)).
       do 7 eexists. repeat split.
       intros m. apply does_field_exist_no_ValueError. }
  all: destruct (Py.dict_get "name" (cells w l)) as [name|] eqn:Hname;
    [ right
    | left; destruct (no_name_eq (init s) coll w l Hname) as (H1 & H2 & H3 & H4);
      assumption ].
  all: assert (Hn : dict_getitem (cells w l) "name" = Ok name)
    by (unfold dict_getitem; rewrite Hname; reflexivity).
  - rewrite (create_field_eq (init s) (init_endpoint s) coll w l name Hn).
    do 7 eexists. repeat split.
    intros m. apply does_field_exist_no_ValueError.
  - rewrite (replace_field_eq (init s) (init_endpoint s) coll w l name Hn).
    do 7 eexists. repeat split.
    intros m. apply does_field_exist_no_ValueError.
  - rewrite (create_field_type_eq (init s) (init_endpoint s) coll w l name Hn).
    do 7 eexists. repeat split.
    intros m. apply does_field_type_exist_no_ValueError.
  - rewrite (replace_field_type_eq (init s) (init_endpoint s) coll w l name Hn).
    do 7 eexists. repeat split.
    intros m. apply does_field_type_exist_no_ValueError.
Qed.

(** C3. When [create_field], [replace_field], [delete_field],
    [create_field_type] or [replace_field_type] raises the [ValueError] of
    its precondition, the requests it has sent hold no POST: the run has
    made no mutating transport call. *)
Theorem precondition_error_before_post (s : Solr) (c : Call) (w w' : World)
  (m : string) :
  guarded c = true ->
  run (init s) c w = (Raise (ValueError m), w') ->
  exists reads : list Request,
    trace w' = trace w +++ reads /\ List.filter is_post reads = [].
Proof.
  intros Hg Hrun.
  destruct (run_guarded s c w Hg) as [Hkey | (coll & verb & d & q & present &
                                              fw & msg & Heq & _ & Hq & Hnv)].
  - rewrite Hkey in Hrun. discriminate.
  - rewrite Heq in Hrun.
    destruct (checked_ValueError (init s) coll verb d q present fw msg w m)
      as (_ & _ & Htrace); [exact Hnv | rewrite Hrun; reflexivity|].
    rewrite Hrun in Htrace. simpl in Htrace.
    exists [q]. split; [exact Htrace|]. simpl. rewrite Hq. reflexivity.
Qed.

(** ** Creating fields and field types *)

(** C4. For a mapping with a [name] entry, [create_field] raises its
    [ValueError] exactly when the existence query it makes first answers
    true, and then nothing but the query has been sent; when the query
    answers false it sends the query and one add-field POST and its
    outcome is the transport's answer to the POST.  The same holds of
    [create_field_type] with the query on field types and add-field-type. *)
Theorem create_raises_iff_present (s : Solr) (coll : string) (l : loc)
  (w : World) (name : pyval) :
  Py.dict_get "name" (cells w l) = Some name ->
  (let present := fst (does_field_exist (init s) coll name w) in
   let q := fields_request coll in
   let req := patch coll "add-field" (cells w l) in
   let out := create_field (init s) coll l w in
   ((exists m, fst out = Raise (ValueError m)) <-> present = Ok true) /\
   (present = Ok true ->
    out = (Raise (ValueError (format2 "Field " name
                                " Already Exists in Solr Collection " coll)),
           sent w [q])) /\
   (present = Ok false ->
    fst out = of_reply (transport s (trace w +++ [q]) req) /\
    trace (snd out) = trace w +++ [q; req])) /\
  (let present := fst (does_field_type_exist (init s) coll name w) in
   let q := field_types_request coll in
   let req := patch coll "add-field-type" (cells w l) in
   let out := create_field_type (init s) coll l w in
   ((exists m, fst out = Raise (ValueError m)) <-> present = Ok true) /\
   (present = Ok true ->
    out = (Raise (ValueError (format2 "Field Type " name
                                " Already Exists in Solr Collection " coll)),
           sent w [q])) /\
   (present = Ok false ->
    fst out = of_reply (transport s (trace w +++ [q]) req) /\
    trace (snd out) = trace w +++ [q; req])).
Proof.
  intros Hname.
  assert (Hn : dict_getitem (cells w l) "name" = Ok name)
    by (unfold dict_getitem; rewrite Hname; reflexivity).
  split; intros present q req out; subst out.
  - rewrite (create_field_eq (init s) (init_endpoint s) coll w l name Hn).
    fold present q. split; [|split].
    + apply checked_iff. intros m. apply does_field_exist_no_ValueError.
    + apply checked_fails.
    + exact (checked_passes (init s) coll "add-field" (cells w l) q present
               true _ w).
  - rewrite (create_field_type_eq (init s) (init_endpoint s) coll w l name Hn).
    fold present q. split; [|split].
    + apply checked_iff. intros m. apply does_field_type_exist_no_ValueError.
    + apply checked_fails.
    + exact (checked_passes (init s) coll "add-field-type" (cells w l) q
               present true _ w).
Qed.

(** ** Existence queries *)

Lemma comprehension_total {A B : Type} (f : A -> result B) (l : list A) :
  (forall x, In x l -> exists y, f x = Ok y) ->
  exists ys, comprehension f l = Ok ys /\ Forall2 (fun x y => f x = Ok y) l ys.
Proof.
  induction l as [|x rest IH]; intros Hall; simpl.
  - exists []. split; [reflexivity | constructor].
  - destruct (Hall x (or_introl eq_refl)) as (y & Hy).
    destruct IH as (ys & Hys & Hall2); [intros x' Hx'; apply Hall; now right|].
    exists (y :: ys). rewrite Hy, Hys. split; [reflexivity|].
    constructor; assumption.
Qed.

Lemma list_in_Forall2 (n : pyval) (recs names : list pyval) :
  Forall2 (fun r v => getitem r "name" = Ok v) recs names ->
  list_in n names = true <-> Exists (named n) recs.
Proof.
  unfold list_in.
  induction 1 as [|r v recs names Hrv Hrest IH]; simpl.
  - split; [discriminate | intros H; inversion H].
  - rewrite Bool.orb_true_iff, IH. split.
    + intros [Heq | Hex]; [left; exists v; auto | right; exact Hex].
    + intros Hex. inversion Hex as [? ? (v' & Hv' & Heq) | ? ? Hex']; subst.
      * left. rewrite Hrv in Hv'. injection Hv' as <-. exact Heq.
      * right. exact Hex'.
Qed.

Lemma name_in_records_spec (n : pyval) (recs : list pyval) :
  Forall (has_key "name") recs ->
  exists b, name_in_records n (PList recs) = Ok b /\
            (b = true <-> Exists (named n) recs).
Proof.
  intros Hall. unfold name_in_records. simpl iter.
  destruct (comprehension_total (fun field => getitem field "name") recs)
    as (names & Hnames & Hall2).
  { intros x Hx. rewrite Forall_forall in Hall. exact (Hall x Hx). }
  rewrite Hnames. exists (list_in n names). split.
  - destruct (list_in n names); reflexivity.
  - apply list_in_Forall2, Hall2.
Qed.

Lemma search_copy_field_spec (src dst : pyval) (recs : list pyval) :
  Forall (fun r => has_key "source" r /\ has_key "dest" r) recs ->
  exists b, search_copy_field src dst recs = Ok b /\
            (b = true <-> Exists (copies src dst) recs).
Proof.
  induction 1 as [|r recs [(a & Ha) (b & Hb)] Hrest (b' & Hsearch & Hiff)];
    simpl.
  - exists false. split; [reflexivity|].
    split; [discriminate | intros H; inversion H].
  - rewrite Ha, Hb.
    assert (Hhere : copies src dst r <-> Py.eq a src = true /\ Py.eq b dst = true).
    { split.
      - intros (a' & b'' & Ha' & Hb' & H1 & H2).
        rewrite Ha in Ha'. rewrite Hb in Hb'.
        injection Ha' as <-. injection Hb' as <-. auto.
      - intros [H1 H2]. exists a, b. auto. }
    destruct (Py.eq a src) eqn:Esrc; [destruct (Py.eq b dst) eqn:Edst|].
    + exists true. split; [reflexivity|].
      split; [intros _; left; apply Hhere; auto | reflexivity].
    + exists b'. split; [exact Hsearch|]. rewrite Hiff.
      split; [intros Hex; right; exact Hex|].
      intros Hex. inversion Hex as [? ? Hc | ? ? Hex']; subst; [|exact Hex'].
      apply Hhere in Hc. destruct Hc; discriminate.
    + exists b'. split; [exact Hsearch|]. rewrite Hiff.
      split; [intros Hex; right; exact Hex|].
      intros Hex. inversion Hex as [? ? Hc | ? ? Hex']; subst; [|exact Hex'].
      apply Hhere in Hc. destruct Hc; discriminate.
Qed.

(** C8. Against a transport that answers the three snapshot queries with
    lists of records (each field and field-type record with a [name], each
    copy rule with [source] and [dest]), [does_field_exist] and
    [does_field_type_exist] send the query for their snapshot, nothing
    else, and return true exactly when some record of it has a name equal
    to the one asked for; [does_copy_field_exist] sends the copy-field
    query and returns true exactly when some record has both the source and
    the dest asked for. *)
Theorem existence_queries (s : Solr) (coll : string) (w : World) :
  (forall (name res : pyval) (fields : list pyval),
      transport s (trace w) (fields_request coll) = Response res ->
      getitem res "fields" = Ok (PList fields) ->
      Forall (has_key "name") fields ->
      exists b, does_field_exist (init s) coll name w
                = (Ok b, sent w [fields_request coll]) /\
                (b = true <-> Exists (named name) fields)) /\
  (forall (name res : pyval) (types : list pyval),
      transport s (trace w) (field_types_request coll) = Response res ->
      getitem res "fieldTypes" = Ok (PList types) ->
      Forall (has_key "name") types ->
      exists b, does_field_type_exist (init s) coll name w
                = (Ok b, sent w [field_types_request coll]) /\
                (b = true <-> Exists (named name) types)) /\
  (forall (src dst res : pyval) (rules : list pyval),
      transport s (trace w) (copyfields_request coll) = Response res ->
      getitem res "copyFields" = Ok (PList rules) ->
      Forall (fun r => has_key "source" r /\ has_key "dest" r) rules ->
      exists b, does_copy_field_exist (init s) coll src dst w
                = (Ok b, sent w [copyfields_request coll]) /\
                (b = true <-> Exists (copies src dst) rules)).
Proof.
  split; [|split].
  - intros name res fields Hf Gf Wf.
    destruct (name_in_records_spec name fields Wf) as (b & Hb & Hiff).
    exists b. split; [|exact Hiff].
    rewrite does_field_exist_eq. simpl solr. simpl transport.
    rewrite Hf. simpl. rewrite Gf. simpl. rewrite Hb. reflexivity.
  - intros name res types Ht Gt Wt.
    destruct (name_in_records_spec name types Wt) as (b & Hb & Hiff).
    exists b. split; [|exact Hiff].
    rewrite does_field_type_exist_eq. simpl solr. simpl transport.
    rewrite Ht. simpl. rewrite Gt. simpl. rewrite Hb. reflexivity.
  - intros src dst res rules Hc Gc Wc.
    destruct (search_copy_field_spec src dst rules Wc) as (b & Hb & Hiff).
    exists b. split; [|exact Hiff].
    unfold does_copy_field_exist. unfold bind at 1.
    rewrite get_schema_copyfields_eq. simpl solr. simpl transport.
    rewrite Hc. simpl and_then. rewrite Gc.
    unfold bind, lift. simpl iter. cbv iota. rewrite Hb. reflexivity.
Qed.

(** ** Reading the schema *)

(** C2, as the code has it.  [get_schema_fields] and
    [get_schema_field_types] send one query each and return the parsed
    response of the transport as it is: the enclosing mapping, where the
    records are the entry [fields], respectively [fieldTypes]. *)
Theorem get_schema_returns_response (s : Solr) (coll : string) (w : World) :
  get_schema_fields (init s) coll w
  = (of_reply (transport s (trace w) (fields_request coll)),
     sent w [fields_request coll]) /\
  get_schema_field_types (init s) coll w
  = (of_reply (transport s (trace w) (field_types_request coll)),
     sent w [field_types_request coll]).
Proof.
  split; [apply get_schema_fields_eq | apply get_schema_field_types_eq].
Qed.

(** C2 as stated fails: on a collection whose fields are the one record
    [id_field] and whose field types are the one record [string_type], the
    two methods do not return the lists of these records but the mappings
    around them. *)
Lemma get_schema_not_the_records :
  fst (get_schema_fields Scenario.docs "docs" Scenario.start)
  <> Ok (PList [PDict Scenario.id_field]) /\
  fst (get_schema_fields Scenario.docs "docs" Scenario.start)
  = Ok (PDict [("fields", PList [PDict Scenario.id_field])]) /\
  fst (get_schema_field_types Scenario.docs "docs" Scenario.start)
  <> Ok (PList [PDict Scenario.string_type]) /\
  fst (get_schema_field_types Scenario.docs "docs" Scenario.start)
  = Ok (PDict [("fieldTypes", PList [PDict Scenario.string_type])]).
Proof.
  repeat split; try reflexivity; intros H; vm_compute in H; discriminate H.
Qed.

(** [get_field] subscripts the response of [schema/fields] with
    [fieldTypes]: a response without that entry ends in [KeyError]. *)
Lemma get_field_KeyError (self : Schema) (coll : string) (n : pyval) (w : World)
  (d : pydict) :
  transport (solr self) (trace w) (fields_request coll) = Response (PDict d) ->
  Py.dict_get "fieldTypes" d = None ->
  get_field self coll n w
  = (Raise (KeyError "fieldTypes"), sent w [fields_request coll]).
Proof.
  intros Hget Hkey. unfold get_field. unfold bind at 1.
  rewrite get_schema_fields_eq, Hget. simpl of_reply. cbv iota.
  unfold bind, lift. simpl getitem. unfold dict_getitem. rewrite Hkey.
  reflexivity.
Qed.

(** C1, where the code departs from it.  On the collection of the
    scenario, whose fields response is [{"fields": [id_field]}],
    [get_field] raises [KeyError('fieldTypes')] for the name of the record
    that is there, and for a name that is not there as well. *)
Theorem get_field_raises_KeyError :
  fst (get_field Scenario.docs "docs" (PStr "id") Scenario.start)
  = Raise (KeyError "fieldTypes") /\
  fst (get_field Scenario.docs "docs" (PStr "ghost") Scenario.start)
  = Raise (KeyError "fieldTypes") /\
  fst (does_field_exist Scenario.docs "docs" (PStr "id") Scenario.start)
  = Ok true.
Proof. repeat split. Qed.

Lemma search_by_name_spec (name : pyval) (items : list pyval) :
  Forall (has_key "name") items ->
  (exists field v, search_by_name name items = Ok (Some field) /\
                   In field items /\
                   getitem field "name" = Ok v /\ Py.eq name v = true) \/
  (search_by_name name items = Ok None /\
   forall field v, In field items -> getitem field "name" = Ok v ->
                   Py.eq name v = false).
Proof.
  induction 1 as [|r items (v & Hv) Hrest IH]; simpl.
  - right. split; [reflexivity | intros ? ? []].
  - rewrite Hv. destruct (Py.eq name v) eqn:Heq.
    + left. exists r, v. auto.
    + destruct IH as [(field & v' & Hs & Hin & Hg & He) | (Hs & Hnone)].
      * left. exists field, v'. auto.
      * right. split; [exact Hs|].
        intros field v' [<- | Hin] Hg; [congruence | eauto].
Qed.

(** The part of C1 on field types: [get_field_type] returns the first
    record of the snapshot whose name is the one asked for, and raises
    [ValueError] with the name and the collection in its message when no
    record has it. *)
Lemma get_field_type_spec (s : Solr) (coll : string) (w : World) (name : pyval)
  (res : pyval) (types : list pyval) :
  transport s (trace w) (field_types_request coll) = Response res ->
  getitem res "fieldTypes" = Ok (PList types) ->
  Forall (has_key "name") types ->
  let out := get_field_type (init s) coll name w in
  (exists field v, fst out = Ok field /\ In field types /\
                   getitem field "name" = Ok v /\ Py.eq name v = true) \/
  (fst out = Raise (ValueError ("Field Type " ++ Py.str name ++
                                " Does Not Exists in Solr Collection " ++ coll)) /\
   forall field v, In field types -> getitem field "name" = Ok v ->
                   Py.eq name v = false).
Proof.
  intros Hget Hkey Hwf out.
  assert (Hrun : fst out
                 = match search_by_name name types with
                   | Ok (Some field) => Ok field
                   | Ok None =>
                       Raise (ValueError
                                (format2 "Field Type " name
                                   " Does Not Exists in Solr Collection " coll))
                   | Raise e => Raise e
                   end).
  { subst out. unfold get_field_type. unfold bind at 1.
    rewrite get_schema_field_types_eq. simpl solr. simpl transport.
    rewrite Hget. simpl of_reply. cbv iota.
    unfold bind at 1, lift. rewrite Hkey.
    unfold bind at 1. simpl iter. cbv iota. unfold bind.
    destruct (search_by_name name types) as [[field|]|e]; reflexivity. }
  rewrite Hrun.
  destruct (search_by_name_spec name types Hwf)
    as [(field & v & Hs & Hin & Hg & He) | (Hs & Hnone)]; rewrite Hs.
  - left. exists field, v. auto.
  - right. split; [reflexivity | exact Hnone].
Qed.

Lemma prefix_app (s t : string) : String.prefix s (s ++ t) = true.
Proof.
  induction s as [|a s IH]; simpl; [destruct t; reflexivity|].
  destruct (ascii_dec a a); [exact IH | congruence].
Qed.

Lemma mentions_here (s t : string) : mentions s (s ++ t) = true.
Proof.
  destruct s; simpl.
  - destruct t; reflexivity.
  - destruct (ascii_dec a a); [|congruence]. rewrite prefix_app. reflexivity.
Qed.

Lemma mentions_self (s : string) : mentions s s = true.
Proof.
  assert (Hp : forall t, String.prefix t t = true).
  { induction t as [|a t IH]; simpl; [reflexivity|].
    destruct (ascii_dec a a); [exact IH | congruence]. }
  destruct s; simpl; [reflexivity|].
  destruct (ascii_dec a a); [|congruence]. rewrite Hp. reflexivity.
Qed.

Lemma mentions_after (s p t : string) :
  mentions s t = true -> mentions s (p ++ t) = true.
Proof.
  intros H. induction p as [|a p IH]; simpl; [exact H|].
  rewrite IH. apply Bool.orb_true_r.
Qed.

(** The message of [get_field_type] for a name that is a string holds the
    name and the collection. *)
Lemma not_found_message_mentions (n coll : string) :
  let msg := format2 "Field Type " (PStr n)
                     " Does Not Exists in Solr Collection " coll in
  mentions n msg = true /\ mentions coll msg = true.
Proof.
  intros msg. subst msg. unfold format2. simpl Py.str. split.
  - apply mentions_after, mentions_here.
  - apply mentions_after, mentions_after, mentions_after.
    apply mentions_self.
Qed.

(** ** The theorems on the scenario *)

(** The scenario of the interface document: [create_field] of [sell_by] on
    a collection without fields sends the query, then the POST whose body
    is the add-field patch written out below, and returns the response of
    the server. *)
Example create_field_scenario :
  let self := init (mkSolr Scenario.empty_server false) in
  let quoted := fun s : string => String Py.dquote (s ++ Py.chr Py.dquote) in
  let out := create_field self "docs" 0 Scenario.start in
  fst out = Ok Scenario.status_ok /\
  trace (snd out)
  = [ mkRequest None "schema/fields" "docs" None;
      mkRequest (Some "POST") "schema/" "docs"
        (Some ("{" ++ quoted "add-field" ++ ": {" ++
               quoted "name" ++ ": " ++ quoted "sell-by" ++ ", " ++
               quoted "type" ++ ": " ++ quoted "tdate" ++ ", " ++
               quoted "stored" ++ ": true}}")) ].
Proof. split; reflexivity. Qed.

(** [replace_field] of [sell_by], which the collection does not have. *)
Lemma precondition_error_before_post_witness :
  guarded (ReplaceField "docs" 0) = true /\
  fst (run Scenario.docs (ReplaceField "docs" 0) Scenario.start)
  = Raise (ValueError "Field sell-by does not exists in Solr Collection docs") /\
  exists reads : list Request,
    trace (snd (run Scenario.docs (ReplaceField "docs" 0) Scenario.start))
    = trace Scenario.start +++ reads /\
    List.filter is_post reads = [].
Proof.
  split; [reflexivity|]. split; [reflexivity|].
  apply (precondition_error_before_post
           (mkSolr Scenario.server false) (ReplaceField "docs" 0)
           Scenario.start
           (snd (run Scenario.docs (ReplaceField "docs" 0) Scenario.start))
           "Field sell-by does not exists in Solr Collection docs").
  - reflexivity.
  - reflexivity.
Defined.

(** [create_field] and [create_field_type] of [sell_by]. *)
Lemma create_raises_iff_present_witness :
  Py.dict_get "name" (cells Scenario.start 0) = Some (PStr "sell-by") /\
  fst (create_field Scenario.docs "docs" 0 Scenario.start)
  = Ok Scenario.status_ok /\
  trace (snd (create_field Scenario.docs "docs" 0 Scenario.start))
  = [fields_request "docs"; patch "docs" "add-field" Scenario.sell_by].
Proof.
  split; [reflexivity|].
  destruct (create_raises_iff_present
              (mkSolr Scenario.server false) "docs" 0 Scenario.start
              (PStr "sell-by") eq_refl) as ((_ & _ & Habsent) & _).
  exact (Habsent eq_refl).
Defined.

(** [delete_copy_field] of a rule the collection does not have. *)
Lemma delete_copy_field_always_posts_witness :
  let s := mkSolr Scenario.server_no_rule false in
  let out := delete_copy_field (init s) "docs" 2 Scenario.start in
  fst out = Ok Scenario.status_ok /\
  trace (snd out)
  = [copyfields_request "docs"; patch "docs" "delete-copy-field" Scenario.rule] /\
  In (INFO, "Fieldset not in Solr Copy Fields: {'source': 'title', 'dest': 'text'}")
     (log (snd out)).
Proof.
  intros s out.
  destruct (delete_copy_field_always_posts
              s "docs" 2 Scenario.start
              (PDict [("copyFields", PList [])]) [] eq_refl eq_refl)
    as (Hres & Htrace & _ & _ & Hlog).
  split; [exact Hres|]. split; [exact Htrace|]. exact (Hlog eq_refl).
Defined.

(** The three existence queries on the collection of the scenario. *)
Lemma existence_queries_witness :
  fst (does_field_exist Scenario.docs "docs" (PStr "id") Scenario.start)
  = Ok true /\
  Exists (named (PStr "id")) [PDict Scenario.id_field] /\
  fst (does_field_type_exist Scenario.docs "docs" (PStr "text_general")
                             Scenario.start)
  = Ok false /\
  ~ Exists (named (PStr "text_general")) [PDict Scenario.string_type] /\
  fst (does_copy_field_exist Scenario.docs "docs" (PStr "title") (PStr "body")
                             Scenario.start)
  = Ok false /\
  ~ Exists (copies (PStr "title") (PStr "body")) [PDict Scenario.rule].
Proof.
  destruct (existence_queries (mkSolr Scenario.server false) "docs"
              Scenario.start) as (Hfields & Htypes & Hrules).
  destruct (Hfields (PStr "id")
              (PDict [("fields", PList [PDict Scenario.id_field])])
              [PDict Scenario.id_field] eq_refl eq_refl)
    as (b1 & H1 & I1).
  { repeat constructor. exists (PStr "id"). reflexivity. }
  destruct (Htypes (PStr "text_general")
              (PDict [("fieldTypes", PList [PDict Scenario.string_type])])
              [PDict Scenario.string_type] eq_refl eq_refl)
    as (b2 & H2 & I2).
  { repeat constructor. exists (PStr "string"). reflexivity. }
  destruct (Hrules (PStr "title") (PStr "body")
              (PDict [("copyFields", PList [PDict Scenario.rule])])
              [PDict Scenario.rule] eq_refl eq_refl)
    as (b3 & H3 & I3).
  { repeat constructor.
    - exists (PStr "title"). reflexivity.
    - exists (PStr "text"). reflexivity. }
  assert (E1 : b1 = true) by (vm_compute in H1; congruence).
  assert (E2 : b2 = false) by (vm_compute in H2; congruence).
  assert (E3 : b3 = false) by (vm_compute in H3; congruence).
  subst b1 b2 b3. repeat split.
  - apply I1. reflexivity.
  - intros Hex. apply I2 in Hex. discriminate Hex.
  - intros Hex. apply I3 in Hex. discriminate Hex.
Defined.

(** The caller's [sell_by] after [create_field] has returned. *)
Lemma caller_mapping_unchanged_witness :
  0 < next Scenario.start /\
  cells (snd (run Scenario.docs (CreateField "docs" 0) Scenario.start)) 0
  = Scenario.sell_by.
Proof.
  split; [unfold Scenario.start; simpl; lia|].
  apply (caller_mapping_unchanged
           (mkSolr Scenario.server false) (CreateField "docs" 0)
           Scenario.start 0).
  unfold Scenario.start; simpl; lia.
Defined.

(** [delete_copy_field] of [rule] with and without the rule in the
    snapshot. *)
Lemma delete_copy_field_snapshot_independent_witness :
  let s1 := mkSolr Scenario.server true in
  let s2 := mkSolr Scenario.server_no_rule false in
  fst (delete_copy_field (init s1) "docs" 2 Scenario.start)
  = fst (delete_copy_field (init s2) "docs" 2 Scenario.start) /\
  trace (snd (delete_copy_field (init s1) "docs" 2 Scenario.start))
  = trace (snd (delete_copy_field (init s2) "docs" 2 Scenario.start)) /\
  log (snd (delete_copy_field (init s1) "docs" 2 Scenario.start))
  <> log (snd (delete_copy_field (init s2) "docs" 2 Scenario.start)).
Proof.
  intros s1 s2.
  destruct (delete_copy_field_snapshot_independent
              s1 s2 "docs" 2 Scenario.start
              (PDict [("copyFields", PList [PDict Scenario.rule])])
              (PDict [("copyFields", PList [])])
              [PDict Scenario.rule] []
              eq_refl eq_refl eq_refl eq_refl eq_refl)
    as (Hres & Htrace & _).
  split; [exact Hres|]. split; [exact Htrace|].
  intros H. vm_compute in H. discriminate H.
Defined.

(** * Further properties of the methods *)

(** ** Replacing and deleting *)

(** [replace_field] and [replace_field_type] of a mapping with a [name],
    and [delete_field] of a name, raise their [ValueError] exactly when the
    existence query they make first answers false, with the query as the
    only request sent; when it answers true they send the query and one
    patch request, and their outcome is the transport's answer to it. *)
Theorem replace_delete_raise_iff_absent (s : Solr) (coll : string) (w : World) :
  (forall (l : loc) (name : pyval),
      Py.dict_get "name" (cells w l) = Some name ->
      let present := fst (does_field_exist (init s) coll name w) in
      let q := fields_request coll in
      let req := patch coll "replace-field" (cells w l) in
      let out := replace_field (init s) coll l w in
      ((exists m, fst out = Raise (ValueError m)) <-> present = Ok false) /\
      (present = Ok false ->
       out = (Raise (ValueError (format2 "Field " name
                                   " does not exists in Solr Collection " coll)),
              sent w [q])) /\
      (present = Ok true ->
       fst out = of_reply (transport s (trace w +++ [q]) req) /\
       trace (snd out) = trace w +++ [q; req])) /\
  (forall (l : loc) (name : pyval),
      Py.dict_get "name" (cells w l) = Some name ->
      let present := fst (does_field_type_exist (init s) coll name w) in
      let q := field_types_request coll in
      let req := patch coll "replace-field-type" (cells w l) in
      let out := replace_field_type (init s) coll l w in
      ((exists m, fst out = Raise (ValueError m)) <-> present = Ok false) /\
      (present = Ok false ->
       out = (Raise (ValueError (format2 "Field Type " name
                                   " does not exists in Solr Collection " coll)),
              sent w [q])) /\
      (present = Ok true ->
       fst out = of_reply (transport s (trace w +++ [q]) req) /\
       trace (snd out) = trace w +++ [q; req])) /\
  (forall name : pyval,
      let present := fst (does_field_exist (init s) coll name w) in
      let q := fields_request coll in
      let req := patch coll "delete-field" [("name", name)] in
      let out := delete_field (init s) coll name w in
      ((exists m, fst out = Raise (ValueError m)) <-> present = Ok false) /\
      (present = Ok false ->
       out = (Raise (ValueError (format2 "Field " name
                                   " Doesn't Exists in Solr Collection " coll)),
              sent w [q])) /\
      (present = Ok true ->
       fst out = of_reply (transport s (trace w +++ [q]) req) /\
       trace (snd out) = trace w +++ [q; req])).
Proof.
  split; [|split].
  - intros l name Hname present q req out. subst out.
    assert (Hn : dict_getitem (cells w l) "name" = Ok name)
      by (unfold dict_getitem; rewrite Hname; reflexivity).
    rewrite (replace_field_eq (init s) (init_endpoint s) coll w l name Hn).
    fold present q. split; [|split].
    + apply checked_iff. intros m. apply does_field_exist_no_ValueError.
    + apply checked_fails.
    + exact (checked_passes (init s) coll "replace-field" (cells w l) q present
               false _ w).
  - intros l name Hname present q req out. subst out.
    assert (Hn : dict_getitem (cells w l) "name" = Ok name)
      by (unfold dict_getitem; rewrite Hname; reflexivity).
    rewrite (replace_field_type_eq (init s) (init_endpoint s) coll w l name Hn).
    fold present q. split; [|split].
    + apply checked_iff. intros m. apply does_field_type_exist_no_ValueError.
    + apply checked_fails.
    + exact (checked_passes (init s) coll "replace-field-type" (cells w l) q
               present false _ w).
  - intros name present q req out. subst out.
    rewrite (delete_field_eq (init s) (init_endpoint s) coll w name).
    fold present q. split; [|split].
    + apply checked_iff. intros m. apply does_field_exist_no_ValueError.
    + apply checked_fails.
    + exact (checked_passes (init s) coll "delete-field" [("name", name)] q
               present false _ w).
Qed.

(** [delete_field] of the field the collection has, [replace_field] of one
    it does not have. *)
Lemma replace_delete_raise_iff_absent_witness :
  fst (delete_field Scenario.docs "docs" (PStr "id") Scenario.start)
  = Ok Scenario.status_ok /\
  trace (snd (delete_field Scenario.docs "docs" (PStr "id") Scenario.start))
  = [fields_request "docs";
     patch "docs" "delete-field" [("name", PStr "id")]] /\
  fst (replace_field Scenario.docs "docs" 0 Scenario.start)
  = Raise (ValueError "Field sell-by does not exists in Solr Collection docs") /\
  fst (replace_field_type Scenario.docs "docs" 3 Scenario.start)
  = Ok Scenario.status_ok.
Proof.
  destruct (replace_delete_raise_iff_absent
              (mkSolr Scenario.server false) "docs" Scenario.start)
    as (Hrep & Htype & Hdel).
  destruct (Hdel (PStr "id")) as (_ & _ & Hpresent).
  destruct (Hpresent eq_refl) as (Hres & Htrace).
  destruct (Hrep 0 (PStr "sell-by") eq_refl) as (_ & Habsent & _).
  destruct (Htype 3 (PStr "string") eq_refl) as (_ & _ & Htp).
  destruct (Htp eq_refl) as (Hres3 & _).
  split; [exact Hres|]. split; [exact Htrace|].
  split; [exact (f_equal fst (Habsent eq_refl)) | exact Hres3].
Defined.

(** ** A mapping without a name *)

(** [create_field], [replace_field], [create_field_type] and
    [replace_field_type] of a mapping that has no [name] entry raise
    [KeyError('name')] before anything else happens: no request is sent,
    nothing is logged, no object is made. *)
Theorem missing_name_raises_KeyError (s : Solr) (c : Call) (w : World) :
  guarded c = true ->
  reaches_query c w = false ->
  run (init s) c w = (Raise (KeyError "name"), w).
Proof.
  intros Hg Hreach.
  destruct c as [coll l|coll l|coll n|coll l|coll l|coll l|coll l];
    try discriminate Hg; try discriminate Hreach; simpl in Hreach;
    destruct (Py.dict_get "name" (cells w l)) eqn:Hname; try discriminate;
    destruct (no_name_eq (init s) coll w l Hname) as (H1 & H2 & H3 & H4);
    simpl run; assumption.
Qed.

Lemma missing_name_raises_KeyError_witness :
  reaches_query (CreateFieldType "docs" 2) Scenario.start = false /\
  run Scenario.docs (CreateFieldType "docs" 2) Scenario.start
  = (Raise (KeyError "name"), Scenario.start).
Proof.
  split; [reflexivity|].
  apply (missing_name_raises_KeyError (mkSolr Scenario.server false)
           (CreateFieldType "docs" 2) Scenario.start); reflexivity.
Defined.

(** ** Looking a record up by name *)

Lemma search_by_name_first (name : pyval) (pre post : list pyval)
  (field v : pyval) :
  Forall (has_key "name") pre ->
  (forall r v', In r pre -> getitem r "name" = Ok v' -> Py.eq name v' = false) ->
  getitem field "name" = Ok v ->
  Py.eq name v = true ->
  search_by_name name (pre +++ (field :: post)) = Ok (Some field).
Proof.
  intros Hwf Hno Hv Heq. induction Hwf as [|r pre (v' & Hv') Hrest IH]; simpl.
  - rewrite Hv, Heq. reflexivity.
  - rewrite Hv'. rewrite (Hno r v' (or_introl eq_refl) Hv').
    apply IH. intros r' v'' Hin. apply Hno. right. exact Hin.
Qed.

Lemma search_by_name_none (name : pyval) (items : list pyval) :
  Forall (has_key "name") items ->
  (forall r v, In r items -> getitem r "name" = Ok v -> Py.eq name v = false) ->
  search_by_name name items = Ok None.
Proof.
  intros Hwf Hno. induction Hwf as [|r items (v & Hv) Hrest IH]; simpl.
  - reflexivity.
  - rewrite Hv. rewrite (Hno r v (or_introl eq_refl) Hv).
    apply IH. intros r' v' Hin. apply Hno. right. exact Hin.
Qed.

(** What [get_field_type] comes to once the response has an entry
    [fieldTypes] that can be iterated. *)
Lemma get_field_type_eq (self : Schema) (coll : string) (name : pyval)
  (w : World) (res v : pyval) (items : list pyval) :
  transport (solr self) (trace w) (field_types_request coll) = Response res ->
  getitem res "fieldTypes" = Ok v ->
  iter v = Ok items ->
  get_field_type self coll name w
  = (match search_by_name name items with
     | Ok (Some field) => Ok field
     | Ok None =>
         Raise (ValueError (format2 "Field Type " name
                              " Does Not Exists in Solr Collection " coll))
     | Raise e => Raise e
     end, sent w [field_types_request coll]).
Proof.
  intros Hget Hkey Hiter. unfold get_field_type. unfold bind at 1.
  rewrite get_schema_field_types_eq, Hget. simpl of_reply. cbv iota.
  unfold bind at 1, lift. rewrite Hkey.
  unfold bind at 1. rewrite Hiter. unfold bind.
  destruct (search_by_name name items) as [[field|]|e]; reflexivity.
Qed.

(** The same for [get_field], which reads the entry [fieldTypes] of the
    response to the fields query. *)
Lemma get_field_eq (self : Schema) (coll : string) (name : pyval)
  (w : World) (res v : pyval) (items : list pyval) :
  transport (solr self) (trace w) (fields_request coll) = Response res ->
  getitem res "fieldTypes" = Ok v ->
  iter v = Ok items ->
  get_field self coll name w
  = (match search_by_name name items with
     | Ok (Some field) => Ok field
     | Ok None =>
         Raise (ValueError (format2 "Field " name
                              " Does Not Exists in Solr Collection " coll))
     | Raise e => Raise e
     end, sent w [fields_request coll]).
Proof.
  intros Hget Hkey Hiter. unfold get_field. unfold bind at 1.
  rewrite get_schema_fields_eq, Hget. simpl of_reply. cbv iota.
  unfold bind at 1, lift. rewrite Hkey.
  unfold bind at 1. rewrite Hiter. unfold bind.
  destruct (search_by_name name items) as [[field|]|e]; reflexivity.
Qed.

(** [get_field_type] returns the first record of the [fieldTypes] list
    whose name equals the one asked for, without looking at the records
    after it; when every record has a name and none is equal, it raises the
    [ValueError] whose message holds the name and the collection.  Either
    way the field-types query is the one request sent. *)
Theorem get_field_type_first_match (s : Solr) (coll : string) (w : World)
  (name res : pyval) (types : list pyval) :
  transport s (trace w) (field_types_request coll) = Response res ->
  getitem res "fieldTypes" = Ok (PList types) ->
  (forall (pre post : list pyval) (field v : pyval),
      types = pre +++ (field :: post) ->
      Forall (has_key "name") pre ->
      (forall r v', In r pre -> getitem r "name" = Ok v' ->
                    Py.eq name v' = false) ->
      getitem field "name" = Ok v ->
      Py.eq name v = true ->
      get_field_type (init s) coll name w
      = (Ok field, sent w [field_types_request coll])) /\
  (Forall (has_key "name") types ->
   (forall r v, In r types -> getitem r "name" = Ok v -> Py.eq name v = false) ->
   get_field_type (init s) coll name w
   = (Raise (ValueError ("Field Type " ++ Py.str name ++
                         " Does Not Exists in Solr Collection " ++ coll)),
      sent w [field_types_request coll])).
Proof.
  intros Hget Hkey. split.
  - intros pre post field v -> Hwf Hno Hv Heq.
    rewrite (get_field_type_eq (init s) coll name w res _ _ Hget Hkey eq_refl).
    rewrite (search_by_name_first name pre post field v Hwf Hno Hv Heq).
    reflexivity.
  - intros Hwf Hno.
    rewrite (get_field_type_eq (init s) coll name w res _ _ Hget Hkey eq_refl).
    rewrite (search_by_name_none name types Hwf Hno). reflexivity.
Qed.

Lemma eq_str_sym (n : string) (v : pyval) : Py.eq (PStr n) v = Py.eq v (PStr n).
Proof. destruct v; simpl; try reflexivity. apply String.eqb_sym. Qed.

(** For a name that is a string and a [fieldTypes] list whose records all
    have a name, [get_field_type] returns a record exactly when
    [does_field_type_exist] returns true on the same response, and raises
    its [ValueError] exactly when [does_field_type_exist] returns false. *)
Theorem get_field_type_agrees_with_exists (s : Solr) (coll : string) (w : World)
  (n : string) (res : pyval) (types : list pyval) :
  transport s (trace w) (field_types_request coll) = Response res ->
  getitem res "fieldTypes" = Ok (PList types) ->
  Forall (has_key "name") types ->
  let present := fst (does_field_type_exist (init s) coll (PStr n) w) in
  let out := fst (get_field_type (init s) coll (PStr n) w) in
  (present = Ok true <-> exists field, out = Ok field) /\
  (present = Ok false <->
   out = Raise (ValueError ("Field Type " ++ n ++
                            " Does Not Exists in Solr Collection " ++ coll))).
Proof.
  intros Hget Hkey Hwf present out.
  destruct (name_in_records_spec (PStr n) types Hwf) as (b & Hb & Hiff).
  assert (Hp : present = Ok b).
  { subst present. rewrite does_field_type_exist_eq. simpl solr.
    simpl transport. rewrite Hget. simpl. rewrite Hkey. simpl. exact Hb. }
  destruct (get_field_type_spec s coll w (PStr n) res types Hget Hkey Hwf)
    as [(field & v & Hout & Hin & Hv & Heq) | (Hout & Hno)];
    fold out in Hout; simpl Py.str in Hout.
  - assert (Hbt : b = true).
    { apply Hiff. apply Exists_exists. exists field. split; [exact Hin|].
      exists v. split; [exact Hv|]. rewrite <- eq_str_sym. exact Heq. }
    rewrite Hp, Hbt, Hout. split.
    + split; [intros _; exists field; reflexivity | reflexivity].
    + split; discriminate.
  - assert (Hbf : b = false).
    { destruct b; [|reflexivity]. destruct Hiff as [Hex _].
      specialize (Hex eq_refl). apply Exists_exists in Hex.
      destruct Hex as (r & Hin & v & Hv & Heq).
      rewrite <- eq_str_sym in Heq. rewrite (Hno r v Hin Hv) in Heq.
      discriminate. }
    rewrite Hp, Hbf, Hout. split.
    + split; [discriminate | intros (field & Hf); discriminate].
    + split; reflexivity.
Qed.

(** [get_field] asks for the fields of the collection and then reads the
    entry [fieldTypes] of the response: when the response is a mapping
    without that entry it raises [KeyError('fieldTypes')] whatever the
    name; when the response has the entry, it returns the first record
    there whose name equals the one asked for. *)
Theorem get_field_reads_fieldTypes (s : Solr) (coll : string) (w : World)
  (name : pyval) :
  (forall d : pydict,
      transport s (trace w) (fields_request coll) = Response (PDict d) ->
      Py.dict_get "fieldTypes" d = None ->
      get_field (init s) coll name w
      = (Raise (KeyError "fieldTypes"), sent w [fields_request coll])) /\
  (forall (res : pyval) (pre post : list pyval) (field v : pyval),
      transport s (trace w) (fields_request coll) = Response res ->
      getitem res "fieldTypes" = Ok (PList (pre +++ (field :: post))) ->
      Forall (has_key "name") pre ->
      (forall r v', In r pre -> getitem r "name" = Ok v' ->
                    Py.eq name v' = false) ->
      getitem field "name" = Ok v ->
      Py.eq name v = true ->
      get_field (init s) coll name w
      = (Ok field, sent w [fields_request coll])).
Proof.
  split.
  - intros d Hget Hnone. exact (get_field_KeyError (init s) coll name w d Hget Hnone).
  - intros res pre post field v Hget Hkey Hwf Hno Hv Heq.
    rewrite (get_field_eq (init s) coll name w res _ _ Hget Hkey eq_refl).
    rewrite (search_by_name_first name pre post field v Hwf Hno Hv Heq).
    reflexivity.
Qed.

(** ** Searching the snapshots *)

Lemma search_copy_field_first (src dst : pyval) (pre post : list pyval)
  (r : pyval) :
  Forall (fun x => has_key "source" x /\ has_key "dest" x) pre ->
  Forall (fun x => ~ copies src dst x) pre ->
  copies src dst r ->
  search_copy_field src dst (pre +++ (r :: post)) = Ok true.
Proof.
  intros Hwf Hno (a & b & Ha & Hb & Ea & Eb).
  induction Hwf as [|x pre [(a' & Ha') (b' & Hb')] Hrest IH]; simpl.
  - rewrite Ha, Ea, Hb, Eb. reflexivity.
  - inversion Hno as [|? ? Hx Hno']; subst.
    rewrite Ha'. destruct (Py.eq a' src) eqn:E1; [|exact (IH Hno')].
    rewrite Hb'. destruct (Py.eq b' dst) eqn:E2; [|exact (IH Hno')].
    exfalso. apply Hx. exists a', b'. auto.
Qed.

(** [does_copy_field_exist] returns true at the first record that has the
    source and the dest asked for: the records after it are not looked at,
    whatever they are. *)
Theorem does_copy_field_exist_stops_at_match (s : Solr) (coll : string)
  (w : World) (src dst res : pyval) (pre post : list pyval) (r : pyval) :
  transport s (trace w) (copyfields_request coll) = Response res ->
  getitem res "copyFields" = Ok (PList (pre +++ (r :: post))) ->
  Forall (fun x => has_key "source" x /\ has_key "dest" x) pre ->
  Forall (fun x => ~ copies src dst x) pre ->
  copies src dst r ->
  does_copy_field_exist (init s) coll src dst w
  = (Ok true, sent w [copyfields_request coll]).
Proof.
  intros Hget Hkey Hwf Hno Hr.
  unfold does_copy_field_exist. unfold bind at 1.
  rewrite get_schema_copyfields_eq. simpl solr. simpl transport.
  rewrite Hget. simpl and_then. rewrite Hkey.
  unfold bind, lift. simpl iter. cbv iota.
  rewrite (search_copy_field_first src dst pre post r Hwf Hno Hr).
  reflexivity.
Qed.

Lemma comprehension_nameless (recs : list pyval) :
  Forall (fun r => exists d, r = PDict d) recs ->
  Exists (fun r => exists d, r = PDict d /\ Py.dict_get "name" d = None) recs ->
  comprehension (fun field => getitem field "name") recs
  = Raise (KeyError "name").
Proof.
  intros Hdict Hex. induction Hdict as [|r recs (d & ->) Hrest IH]; simpl.
  - inversion Hex.
  - unfold dict_getitem. destruct (Py.dict_get "name" d) as [v|] eqn:Hd.
    + inversion Hex as [? ? (d' & Heq & Hnone) | ? ? Hex']; subst.
      * injection Heq as <-. congruence.
      * rewrite (IH Hex'). reflexivity.
    + reflexivity.
Qed.

(** [does_field_exist] and [does_field_type_exist] collect the name of
    every record before they compare: when the records are mappings and
    one of them has no [name] entry, they raise [KeyError('name')] whatever
    name is asked for, also when another record has that name. *)
Theorem existence_needs_every_name (s : Solr) (coll : string) (w : World)
  (name : pyval) :
  (forall (res : pyval) (fields : list pyval),
      transport s (trace w) (fields_request coll) = Response res ->
      getitem res "fields" = Ok (PList fields) ->
      Forall (fun r => exists d, r = PDict d) fields ->
      Exists (fun r => exists d, r = PDict d /\ Py.dict_get "name" d = None)
             fields ->
      does_field_exist (init s) coll name w
      = (Raise (KeyError "name"), sent w [fields_request coll])) /\
  (forall (res : pyval) (types : list pyval),
      transport s (trace w) (field_types_request coll) = Response res ->
      getitem res "fieldTypes" = Ok (PList types) ->
      Forall (fun r => exists d, r = PDict d) types ->
      Exists (fun r => exists d, r = PDict d /\ Py.dict_get "name" d = None)
             types ->
      does_field_type_exist (init s) coll name w
      = (Raise (KeyError "name"), sent w [field_types_request coll])).
Proof.
  split; intros res recs Hget Hkey Hdict Hex.
  - rewrite does_field_exist_eq. simpl solr. simpl transport.
    rewrite Hget. cbn [of_reply and_then]. rewrite Hkey. cbn [and_then].
    unfold name_in_records. cbn [iter].
    rewrite (comprehension_nameless recs Hdict Hex). reflexivity.
  - rewrite does_field_type_exist_eq. simpl solr. simpl transport.
    rewrite Hget. cbn [of_reply and_then]. rewrite Hkey. cbn [and_then].
    unfold name_in_records. cbn [iter].
    rewrite (comprehension_nameless recs Hdict Hex). reflexivity.
Qed.

(** ** The outcome of a mutating call *)

Lemma checked_outcome (self : Schema) (coll verb : string) (d : pydict)
  (q : Request) (present : result bool) (fail_when : bool) (msg : string)
  (w : World) :
  let out := checked self coll verb d q present fail_when msg w in
  (trace (snd out) = trace w +++ [q] /\ exists e, fst out = Raise e) \/
  (fst out = of_reply (transport (solr self) (trace w +++ [q])
                                 (patch coll verb d)) /\
   trace (snd out) = trace w +++ [q] +++ [patch coll verb d]).
Proof.
  unfold checked. destruct present as [b|e]; simpl.
  - destruct (Bool.eqb b fail_when); simpl.
    + left. split; [reflexivity|]. eexists. reflexivity.
    + right. rewrite <- app_assoc. split; reflexivity.
  - left. split; [reflexivity|]. exists e. reflexivity.
Qed.

Lemma delete_copy_field_outcome (self : Schema) (coll : string) (l : loc)
  (w : World) :
  schema_endpoint self = "schema/" ->
  let q := copyfields_request coll in
  let req := patch coll "delete-copy-field" (cells w l) in
  let out := delete_copy_field self coll l w in
  (trace (snd out) = trace w +++ [q] /\ exists e, fst out = Raise e) \/
  (fst out = of_reply (transport (solr self) (trace w +++ [q]) req) /\
   trace (snd out) = trace w +++ [q] +++ [req]).
Proof.
  intros Hep q req out. subst out.
  destruct (transport (solr self) (trace w) q) as [res|e] eqn:Hget.
  - destruct (getitem res "copyFields") as [snap|e] eqn:Hsnap.
    + destruct snap as [| | | |snap|];
        try (left;
             unfold delete_copy_field, get_schema_copyfields; unfold_m;
             destruct (devel self); cbn [trace log cells next];
             fold (copyfields_request coll); fold q; rewrite Hget;
             cbn [of_reply]; rewrite Hsnap; (split; [reflexivity|]);
             exists TypeError; reflexivity).
      right. rewrite (delete_copy_field_eq self coll l w res snap Hep Hget Hsnap).
      split; reflexivity.
    + left.
      unfold delete_copy_field, get_schema_copyfields; unfold_m;
        destruct (devel self); cbn [trace log cells next];
        fold (copyfields_request coll); fold q; rewrite Hget;
        cbn [of_reply]; rewrite Hsnap; (split; [reflexivity|]);
        exists e; reflexivity.
  - left.
    unfold delete_copy_field, get_schema_copyfields; unfold_m;
      destruct (devel self); cbn [trace log cells next];
      fold (copyfields_request coll); fold q; rewrite Hget;
      (split; [reflexivity|]); exists (TransportError e); reflexivity.
Qed.

(** Every mutating call sends queries, which are no POST, and then either
    stops with an exception or sends its patch request and ends with the
    answer of the transport to it. *)
Lemma run_outcome (s : Solr) (c : Call) (w : World) :
  let out := run (init s) c w in
  exists reads : list Request,
    List.filter is_post reads = [] /\
    ((trace (snd out) = trace w +++ reads /\ exists e, fst out = Raise e) \/
     (fst out = of_reply (transport s (trace w +++ reads) (patch_request c w)) /\
      trace (snd out) = trace w +++ reads +++ [patch_request c w])).
Proof.
  intros out. subst out.
  destruct (guarded c) eqn:Hg.
  - destruct (run_guarded s c w Hg) as [Hkey | (coll & verb & d & q & present &
                                                fw & msg & Heq & Hreq & Hq & _)].
    + exists []. split; [reflexivity|]. left. rewrite Hkey. simpl.
      rewrite app_nil_r. eauto.
    + exists [q]. split; [simpl; rewrite Hq; reflexivity|].
      rewrite Heq, Hreq.
      exact (checked_outcome (init s) coll verb d q present fw msg w).
  - destruct c as [coll l|coll l|coll n|coll l|coll l|coll l|coll l];
      try discriminate Hg; simpl run.
    + exists []. split; [reflexivity|]. right.
      rewrite (create_copy_field_eq (init s) (init_endpoint s)).
      simpl. rewrite app_nil_r. split; reflexivity.
    + exists [copyfields_request coll]. split; [reflexivity|].
      exact (delete_copy_field_outcome (init s) coll l w (init_endpoint s)).
Qed.

(** A mutating call that ends with an exception other than one of the
    transport has sent no POST: a [ValueError], [KeyError] or [TypeError]
    always comes before the patch request. *)
Theorem exception_before_post (s : Solr) (c : Call) (w : World) (e : exn) :
  fst (run (init s) c w) = Raise e ->
  transport_error e = false ->
  exists reads : list Request,
    trace (snd (run (init s) c w)) = trace w +++ reads /\
    List.filter is_post reads = [].
Proof.
  intros Hrun Hte.
  destruct (run_outcome s c w) as (reads & Hreads & [[Ht _] | [Hres _]]).
  - exists reads. split; assumption.
  - rewrite Hrun in Hres.
    destruct (transport s (trace w +++ reads) (patch_request c w));
      simpl in Hres; [discriminate|].
    injection Hres as ->. discriminate Hte.
Qed.

(** A mutating call that returns has sent exactly one POST, its patch
    request, after its queries, and what it returns is the response of the
    transport to that request. *)
Theorem success_returns_response (s : Solr) (c : Call) (w : World) (r : pyval) :
  fst (run (init s) c w) = Ok r ->
  exists reads : list Request,
    List.filter is_post reads = [] /\
    trace (snd (run (init s) c w)) = trace w +++ reads +++ [patch_request c w] /\
    transport s (trace w +++ reads) (patch_request c w) = Response r.
Proof.
  intros Hrun.
  destruct (run_outcome s c w) as (reads & Hreads & [[_ (e & He)] | [Hres Ht]]).
  - rewrite Hrun in He. discriminate.
  - exists reads. split; [exact Hreads|]. split; [exact Ht|].
    rewrite Hrun in Hres.
    destruct (transport s (trace w +++ reads) (patch_request c w));
      simpl in Hres; [congruence | discriminate].
Qed.

(** ** What is logged and what is sent *)

Lemma quiet_bind {A B : Type} (m : M A) (f : A -> M B) :
  quiet m -> (forall a, quiet (f a)) -> quiet (bind m f).
Proof.
  intros Hm Hf w. unfold bind. specialize (Hm w).
  destruct (m w) as [[a|e] w1]; simpl in *; [|exact Hm].
  rewrite Hf. exact Hm.
Qed.

Lemma quiet_ret {A : Type} (a : A) : quiet (ret a).
Proof. intros w. reflexivity. Qed.

Lemma quiet_raise {A : Type} (e : exn) : quiet (@raise A e).
Proof. intros w. reflexivity. Qed.

Lemma quiet_lift {A : Type} (r : result A) : quiet (lift r).
Proof. intros w. reflexivity. Qed.

Lemma quiet_deref (l : loc) : quiet (deref l).
Proof. intros w. reflexivity. Qed.

Lemma quiet_alloc (d : pydict) : quiet (alloc d).
Proof. intros w. reflexivity. Qed.

Lemma quiet_send_request (self : Schema) (req : Request) :
  quiet (send_request self req).
Proof. intros w. reflexivity. Qed.

Lemma quiet_if {A : Type} (b : bool) (m1 m2 : M A) :
  quiet m1 -> quiet m2 -> quiet (if b then m1 else m2).
Proof. destruct b; auto. Qed.

Create HintDb logging.

#[local] Hint Resolve quiet_ret quiet_raise quiet_lift quiet_deref quiet_alloc
  quiet_send_request : logging.

Ltac quiet :=
  repeat first
    [ apply quiet_bind; [|intros ?]
    | apply quiet_if
    | match goal with
      | |- quiet (match ?x with _ => _ end) => destruct x
      end
    | solve [auto with logging] ].

Lemma quiet_post_temp (self : Schema) (coll : string) (temp : loc) :
  quiet (post_temp self coll temp).
Proof. unfold post_temp. quiet. Qed.

Lemma quiet_wrap_copy (verb : string) (d : pydict) : quiet (wrap_copy verb d).
Proof. unfold wrap_copy. quiet. Qed.

Lemma quiet_does_field_exist (self : Schema) (coll : string) (n : pyval) :
  quiet (does_field_exist self coll n).
Proof. unfold does_field_exist, get_schema_fields. quiet. Qed.

Lemma quiet_does_field_type_exist (self : Schema) (coll : string) (n : pyval) :
  quiet (does_field_type_exist self coll n).
Proof. unfold does_field_type_exist, get_schema_field_types. quiet. Qed.

#[local] Hint Resolve quiet_post_temp quiet_wrap_copy quiet_does_field_exist
  quiet_does_field_type_exist : logging.

(** Of the mutating methods only [delete_copy_field] uses the logger:
    every other call leaves the log as it was, whether it returns or
    raises and whatever the [devel] flag is. *)
Theorem only_delete_copy_field_logs (s : Solr) (c : Call) (w : World) :
  (forall coll l, c <> DeleteCopyField coll l) ->
  log (snd (run (init s) c w)) = log w.
Proof.
  intros Hc.
  assert (Hq : quiet (run (init s) c)).
  { destruct c as [coll l|coll l|coll n|coll l|coll l|coll l|coll l]; simpl;
      try (exfalso; exact (Hc coll l eq_refl));
      unfold create_field, replace_field, delete_field, create_field_type,
        replace_field_type, create_copy_field;
      quiet. }
  apply Hq.
Qed.

Ltac crunch :=
  repeat match goal with
         | |- context [match ?x with _ => _ end] => destruct x
         end;
  try reflexivity.

(** The eight methods that read the schema send one request each, the
    query for their snapshot with no method and no data, whatever the
    transport answers and whether they return or raise; they log nothing
    and make no object. *)
Theorem query_methods_send_one_request (self : Schema) (coll : string)
  (a b : pyval) (w : World) :
  snd (get_schema_fields self coll w) = sent w [fields_request coll] /\
  snd (get_schema_field_types self coll w) = sent w [field_types_request coll] /\
  snd (get_schema_copyfields self coll w) = sent w [copyfields_request coll] /\
  snd (does_field_exist self coll a w) = sent w [fields_request coll] /\
  snd (does_field_type_exist self coll a w) = sent w [field_types_request coll] /\
  snd (does_copy_field_exist self coll a b w) = sent w [copyfields_request coll] /\
  snd (get_field self coll a w) = sent w [fields_request coll] /\
  snd (get_field_type self coll a w) = sent w [field_types_request coll].
Proof.
  repeat split.
  - rewrite get_schema_fields_eq. reflexivity.
  - rewrite get_schema_field_types_eq. reflexivity.
  - rewrite get_schema_copyfields_eq. reflexivity.
  - rewrite does_field_exist_eq. reflexivity.
  - rewrite does_field_type_exist_eq. reflexivity.
  - unfold does_copy_field_exist. unfold bind at 1.
    rewrite get_schema_copyfields_eq. unfold bind, lift. crunch.
  - unfold get_field. unfold bind at 1.
    rewrite get_schema_fields_eq. unfold bind, lift, ret, raise. crunch.
  - unfold get_field_type. unfold bind at 1.
    rewrite get_schema_field_types_eq. unfold bind, lift, ret, raise. crunch.
Qed.

(** ** Failures of the query *)

Lemma delete_copy_field_stops (self : Schema) (coll : string) (l : loc)
  (w : World) (e : exn) :
  and_then (and_then (of_reply (transport (solr self) (trace w)
                                          (copyfields_request coll)))
                     (fun res => getitem res "copyFields"))
           (dict_in (cells w l))
  = Raise e ->
  delete_copy_field self coll l w
  = (Raise e,
     mkWorld (trace w +++ [copyfields_request coll])
             (log w +++
              (if devel self
               then [(DEBUG, "Deleting " ++ Py.str (PDict (cells w l)))]
               else []))
             (cells w) (next w)).
Proof.
  intros Hstop. unfold delete_copy_field, get_schema_copyfields. unfold_m.
  fold (copyfields_request coll).
  destruct (devel self); cbn [trace log cells next];
    destruct (transport (solr self) (trace w) (copyfields_request coll))
      as [res|t]; cbn [of_reply and_then] in *;
    try (injection Hstop as <-; rewrite ?app_nil_r; reflexivity);
    destruct (getitem res "copyFields") as [v|e']; cbn [and_then] in *;
    try (injection Hstop as <-; rewrite ?app_nil_r; reflexivity);
    rewrite Hstop; rewrite ?app_nil_r; reflexivity.
Qed.

(** When the response to the copy-field query has no [copyFields] entry,
    [delete_copy_field] raises [KeyError('copyFields')]; when the entry is
    there and is no list, it raises [TypeError].  In both cases the query
    is the only request sent, no delete request goes out, and the log has
    at most grown by the record of the [devel] mode. *)
Theorem delete_copy_field_malformed_snapshot (s : Solr) (coll : string)
  (l : loc) (w : World) :
  let q := copyfields_request coll in
  let out := delete_copy_field (init s) coll l w in
  let debug := if solr_devel s
               then [(DEBUG, "Deleting " ++ Py.str (PDict (cells w l)))]
               else [] in
  (forall d : pydict,
      transport s (trace w) q = Response (PDict d) ->
      Py.dict_get "copyFields" d = None ->
      fst out = Raise (KeyError "copyFields") /\
      trace (snd out) = trace w +++ [q] /\
      log (snd out) = log w +++ debug) /\
  (forall res v : pyval,
      transport s (trace w) q = Response res ->
      getitem res "copyFields" = Ok v ->
      (forall snap, v <> PList snap) ->
      fst out = Raise TypeError /\
      trace (snd out) = trace w +++ [q] /\
      log (snd out) = log w +++ debug).
Proof.
  intros q out debug. subst out debug. split.
  - intros d Hget Hnone.
    rewrite (delete_copy_field_stops (init s) coll l w (KeyError "copyFields")).
    + simpl. destruct (solr_devel s); repeat split.
    + simpl solr. simpl transport. fold q. rewrite Hget. simpl.
      unfold dict_getitem. rewrite Hnone. reflexivity.
  - intros res v Hget Hkey Hnl.
    rewrite (delete_copy_field_stops (init s) coll l w TypeError).
    + simpl. destruct (solr_devel s); repeat split.
    + simpl solr. simpl transport. fold q. rewrite Hget. simpl.
      rewrite Hkey. simpl.
      destruct v as [| | | |snap|]; try reflexivity.
      exfalso. exact (Hnl snap eq_refl).
Qed.

(** When the transport fails on the query a mutating call starts with,
    the call ends with the exception of the transport and the query is the
    only request it has sent. *)
Theorem query_failure_propagates (s : Solr) (c : Call) (w : World)
  (q : Request) (e : string) :
  existence_query c = Some q ->
  reaches_query c w = true ->
  transport s (trace w) q = Failure e ->
  fst (run (init s) c w) = Raise (TransportError e) /\
  trace (snd (run (init s) c w)) = trace w +++ [q].
Proof.
  intros Hq Hreach Hfail.
  destruct c as [coll l|coll l|coll n|coll l|coll l|coll l|coll l];
    simpl in Hq; try discriminate Hq; injection Hq as <-; simpl run;
    simpl in Hreach.
  6: { rewrite (delete_copy_field_stops (init s) coll l w (TransportError e)).
       - split; reflexivity.
       - simpl solr. simpl transport. rewrite Hfail. reflexivity. }
  3: { rewrite (delete_field_eq (init s) (init_endpoint s)).
       rewrite does_field_exist_eq. simpl solr. simpl transport.
       rewrite Hfail. split; reflexivity. }
  all: destruct (Py.dict_get "name" (cells w l)) as [name|] eqn:Hname;
    try discriminate Hreach;
    assert (Hn : dict_getitem (cells w l) "name" = Ok name)
      by (unfold dict_getitem; rewrite Hname; reflexivity).
  - rewrite (create_field_eq (init s) (init_endpoint s) coll w l name Hn).
    rewrite does_field_exist_eq. simpl solr. simpl transport.
    rewrite Hfail. split; reflexivity.
  - rewrite (replace_field_eq (init s) (init_endpoint s) coll w l name Hn).
    rewrite does_field_exist_eq. simpl solr. simpl transport.
    rewrite Hfail. split; reflexivity.
  - rewrite (create_field_type_eq (init s) (init_endpoint s) coll w l name Hn).
    rewrite does_field_type_exist_eq. simpl solr. simpl transport.
    rewrite Hfail. split; reflexivity.
  - rewrite (replace_field_type_eq (init s) (init_endpoint s) coll w l name Hn).
    rewrite does_field_type_exist_eq. simpl solr. simpl transport.
    rewrite Hfail. split; reflexivity.
Qed.

(** ** Snapshots that are no list *)

Lemma name_in_records_non_list (n v : pyval) :
  (forall l, v <> PList l) ->
  name_in_records n v = if empty_container v then Ok false else Raise TypeError.
Proof.
  intros Hnl. unfold name_in_records.
  destruct v as [| | |s|l|d]; try reflexivity.
  - destruct s; reflexivity.
  - exfalso. exact (Hnl l eq_refl).
  - destruct d as [|[k x] d]; reflexivity.
Qed.

(** When the entry [fields] (or [fieldTypes]) of the response is not a
    list, [does_field_exist] (or [does_field_type_exist]) returns false if
    the entry is an empty mapping or an empty string, and raises
    [TypeError] for every other value. *)
Theorem existence_on_non_list (s : Solr) (coll : string) (w : World)
  (name res v : pyval) :
  (forall l, v <> PList l) ->
  (transport s (trace w) (fields_request coll) = Response res ->
   getitem res "fields" = Ok v ->
   fst (does_field_exist (init s) coll name w)
   = if empty_container v then Ok false else Raise TypeError) /\
  (transport s (trace w) (field_types_request coll) = Response res ->
   getitem res "fieldTypes" = Ok v ->
   fst (does_field_type_exist (init s) coll name w)
   = if empty_container v then Ok false else Raise TypeError).
Proof.
  intros Hnl. split; intros Hget Hkey.
  - rewrite does_field_exist_eq. simpl solr. simpl transport.
    rewrite Hget. cbn [fst of_reply and_then]. rewrite Hkey. cbn [and_then].
    apply name_in_records_non_list, Hnl.
  - rewrite does_field_type_exist_eq. simpl solr. simpl transport.
    rewrite Hget. cbn [fst of_reply and_then]. rewrite Hkey. cbn [and_then].
    apply name_in_records_non_list, Hnl.
Qed.

(** ** The diagnostic of [delete_copy_field] *)

Lemma plain_rule_keys (r : pyval) :
  plain_rule r -> has_key "source" r /\ has_key "dest" r.
Proof.
  intros (a & b & [-> | ->]); split; eexists; reflexivity.
Qed.

Lemma plain_rule_eq (src dst r : pyval) :
  plain_rule r ->
  Py.eq r (PDict [("source", src); ("dest", dst)]) = true <-> copies src dst r.
Proof.
  intros (a & b & [-> | ->]); simpl; rewrite !Bool.andb_true_r;
    rewrite Bool.andb_true_iff; split.
  - intros [Ha Hb]. exists a, b. auto.
  - intros (a' & b' & Ha' & Hb' & Ea & Eb).
    injection Ha' as <-. injection Hb' as <-. auto.
  - intros [Hb Ha]. exists a, b. auto.
  - intros (a' & b' & Ha' & Hb' & Ea & Eb).
    injection Ha' as <-. injection Hb' as <-. auto.
Qed.

Lemma plain_rules_in (src dst : pyval) (snap : list pyval) :
  Forall plain_rule snap ->
  List.existsb (fun e => Py.eq e (PDict [("source", src); ("dest", dst)])) snap
  = true <-> Exists (copies src dst) snap.
Proof.
  intros Hplain. rewrite List.existsb_exists, Exists_exists.
  rewrite Forall_forall in Hplain.
  split; intros (r & Hin & Hr); exists r; (split; [exact Hin|]);
    apply (plain_rule_eq src dst r (Hplain r Hin)); exact Hr.
Qed.

(** For a rule [{'source': src, 'dest': dst}] and a snapshot whose records
    have the two entries [source] and [dest] and no other, in either
    order, [delete_copy_field] logs its diagnostic exactly when
    [does_copy_field_exist] answers false for [src] and [dst] on the same
    response. *)
Theorem diagnostic_agrees_with_exists (s : Solr) (coll : string) (l : loc)
  (w : World) (src dst res : pyval) (snap : list pyval) :
  cells w l = [("source", src); ("dest", dst)] ->
  transport s (trace w) (copyfields_request coll) = Response res ->
  getitem res "copyFields" = Ok (PList snap) ->
  Forall plain_rule snap ->
  exists found : bool,
    fst (does_copy_field_exist (init s) coll src dst w) = Ok found /\
    log (snd (delete_copy_field (init s) coll l w))
    = log w +++
      (if solr_devel s
       then [(DEBUG, "Deleting " ++ Py.str (PDict (cells w l)))] else []) +++
      (if found then []
       else [(INFO, "Fieldset not in Solr Copy Fields: "
                    ++ Py.str (PDict (cells w l)))]).
Proof.
  intros Hcell Hget Hkey Hplain.
  assert (Hwf : Forall (fun r => has_key "source" r /\ has_key "dest" r) snap).
  { eapply Forall_impl; [|exact Hplain]. intros r. apply plain_rule_keys. }
  destruct (search_copy_field_spec src dst snap Hwf) as (found & Hsearch & Hiff).
  exists found. split.
  - unfold does_copy_field_exist. unfold bind at 1.
    rewrite get_schema_copyfields_eq. simpl solr. simpl transport.
    rewrite Hget. simpl and_then. rewrite Hkey.
    unfold bind, lift. simpl iter. cbv iota. rewrite Hsearch. reflexivity.
  - rewrite (delete_copy_field_eq (init s) coll l w res snap
               (init_endpoint s) Hget Hkey).
    cbn [snd log]. unfold delete_copy_log. cbn [devel init].
    rewrite Hcell.
    assert (Hb : List.existsb
                   (fun e => Py.eq e (PDict [("source", src); ("dest", dst)]))
                   snap = found).
    { pose proof (plain_rules_in src dst snap Hplain) as Hin.
      destruct found.
      - apply Hin, Hiff. reflexivity.
      - destruct (List.existsb _ snap); [|reflexivity].
        destruct Hin as [Hin _]. specialize (Hin eq_refl).
        apply Hiff in Hin. discriminate Hin. }
    rewrite Hb. destruct (solr_devel s); reflexivity.
Qed.

(** ** The further properties on the scenarios *)

Lemma get_field_type_first_match_witness :
  get_field_type (init (mkSolr Cases.mixed false)) "docs" (PStr "text_general")
                 Scenario.start
  = (Ok (PDict Cases.text_type),
     sent Scenario.start [field_types_request "docs"]) /\
  get_field_type Scenario.docs "docs" (PStr "ghost") Scenario.start
  = (Raise (ValueError "Field Type ghost Does Not Exists in Solr Collection docs"),
     sent Scenario.start [field_types_request "docs"]).
Proof.
  split.
  - destruct (get_field_type_first_match
                (mkSolr Cases.mixed false) "docs" Scenario.start
                (PStr "text_general") _
                [PDict Scenario.string_type; PDict Cases.text_type; PInt 7]
                eq_refl eq_refl) as (Hfirst & _).
    apply (Hfirst [PDict Scenario.string_type] [PInt 7]
                  (PDict Cases.text_type) (PStr "text_general")).
    + reflexivity.
    + repeat constructor. exists (PStr "string"). reflexivity.
    + intros r v' [<- | []] Hv. injection Hv as <-. reflexivity.
    + reflexivity.
    + reflexivity.
  - destruct (get_field_type_first_match
                (mkSolr Scenario.server false) "docs" Scenario.start
                (PStr "ghost") _ [PDict Scenario.string_type]
                eq_refl eq_refl) as (_ & Hnone).
    apply Hnone.
    + repeat constructor. exists (PStr "string"). reflexivity.
    + intros r v' [<- | []] Hv. injection Hv as <-. reflexivity.
Defined.

Lemma get_field_type_agrees_with_exists_witness :
  fst (does_field_type_exist Scenario.docs "docs" (PStr "string") Scenario.start)
  = Ok true /\
  exists field,
    fst (get_field_type Scenario.docs "docs" (PStr "string") Scenario.start)
    = Ok field.
Proof.
  split; [reflexivity|].
  destruct (get_field_type_agrees_with_exists
              (mkSolr Scenario.server false) "docs" Scenario.start "string"
              _ [PDict Scenario.string_type] eq_refl eq_refl)
    as ((Hfound & _) & _).
  - repeat constructor. exists (PStr "string"). reflexivity.
  - apply Hfound. reflexivity.
Defined.

Lemma get_field_reads_fieldTypes_witness :
  get_field Scenario.docs "docs" (PStr "id") Scenario.start
  = (Raise (KeyError "fieldTypes"), sent Scenario.start [fields_request "docs"]) /\
  get_field (init (mkSolr Cases.mixed false)) "docs" (PStr "string")
            Scenario.start
  = (Ok (PDict Scenario.string_type),
     sent Scenario.start [fields_request "docs"]).
Proof.
  split.
  - destruct (get_field_reads_fieldTypes
                (mkSolr Scenario.server false) "docs" Scenario.start (PStr "id"))
      as (Hmissing & _).
    apply (Hmissing [("fields", PList [PDict Scenario.id_field])]); reflexivity.
  - destruct (get_field_reads_fieldTypes
                (mkSolr Cases.mixed false) "docs" Scenario.start (PStr "string"))
      as (_ & Hthere).
    eapply (Hthere _ [] [PDict Cases.text_type; PInt 7]
                  (PDict Scenario.string_type) (PStr "string")).
    + reflexivity.
    + reflexivity.
    + constructor.
    + intros r v' [].
    + reflexivity.
    + reflexivity.
Defined.

Lemma does_copy_field_exist_stops_at_match_witness :
  does_copy_field_exist (init (mkSolr Cases.mixed false)) "docs"
                        (PStr "title") (PStr "text") Scenario.start
  = (Ok true, sent Scenario.start [copyfields_request "docs"]).
Proof.
  eapply (does_copy_field_exist_stops_at_match
           (mkSolr Cases.mixed false) "docs" Scenario.start
           (PStr "title") (PStr "text") _ [] [PNone] (PDict Scenario.rule)).
  - reflexivity.
  - reflexivity.
  - constructor.
  - constructor.
  - exists (PStr "title"), (PStr "text"). repeat split.
Defined.

Lemma existence_needs_every_name_witness :
  does_field_exist (init (mkSolr Cases.mixed false)) "docs" (PStr "id")
                   Scenario.start
  = (Raise (KeyError "name"), sent Scenario.start [fields_request "docs"]).
Proof.
  destruct (existence_needs_every_name
              (mkSolr Cases.mixed false) "docs" Scenario.start (PStr "id"))
    as (Hfields & _).
  eapply (Hfields _ [PDict Scenario.id_field; PDict [("type", PStr "string")]]).
  - reflexivity.
  - reflexivity.
  - repeat constructor; eexists; reflexivity.
  - right. left. eexists. split; reflexivity.
Defined.

Lemma exception_before_post_witness :
  fst (run (init (mkSolr Cases.mixed false)) (CreateField "docs" 0)
           Scenario.start)
  = Raise (KeyError "name") /\
  exists reads : list Request,
    trace (snd (run (init (mkSolr Cases.mixed false)) (CreateField "docs" 0)
                    Scenario.start))
    = trace Scenario.start +++ reads /\
    List.filter is_post reads = [].
Proof.
  split; [reflexivity|].
  apply (exception_before_post (mkSolr Cases.mixed false)
           (CreateField "docs" 0) Scenario.start (KeyError "name"));
    reflexivity.
Defined.

Lemma success_returns_response_witness :
  fst (run Scenario.docs (CreateField "docs" 0) Scenario.start)
  = Ok Scenario.status_ok /\
  exists reads : list Request,
    List.filter is_post reads = [] /\
    trace (snd (run Scenario.docs (CreateField "docs" 0) Scenario.start))
    = trace Scenario.start +++ reads
      +++ [patch_request (CreateField "docs" 0) Scenario.start] /\
    Scenario.server (trace Scenario.start +++ reads)
                    (patch_request (CreateField "docs" 0) Scenario.start)
    = Response Scenario.status_ok.
Proof.
  split; [reflexivity|].
  apply (success_returns_response (mkSolr Scenario.server false)
           (CreateField "docs" 0) Scenario.start Scenario.status_ok).
  reflexivity.
Defined.

Lemma only_delete_copy_field_logs_witness :
  log (snd (run (init (mkSolr Scenario.server true)) (CreateCopyField "docs" 2)
                Scenario.start))
  = log Scenario.start.
Proof.
  apply (only_delete_copy_field_logs (mkSolr Scenario.server true)
           (CreateCopyField "docs" 2) Scenario.start).
  intros coll l H. discriminate H.
Defined.

Lemma delete_copy_field_malformed_snapshot_witness :
  fst (delete_copy_field (init (mkSolr Scenario.empty_server false)) "docs" 2
                         Scenario.start)
  = Raise (KeyError "copyFields") /\
  fst (delete_copy_field (init (mkSolr Cases.odd true)) "docs" 2 Scenario.start)
  = Raise TypeError /\
  trace (snd (delete_copy_field (init (mkSolr Cases.odd true)) "docs" 2
                                Scenario.start))
  = [copyfields_request "docs"] /\
  log (snd (delete_copy_field (init (mkSolr Cases.odd true)) "docs" 2
                              Scenario.start))
  = [(DEBUG, "Deleting {'source': 'title', 'dest': 'text'}")].
Proof.
  destruct (delete_copy_field_malformed_snapshot
              (mkSolr Scenario.empty_server false) "docs" 2 Scenario.start)
    as (Hmissing & _).
  destruct (Hmissing [("fields", PList [])] eq_refl eq_refl) as (H1 & _).
  destruct (delete_copy_field_malformed_snapshot
              (mkSolr Cases.odd true) "docs" 2 Scenario.start)
    as (_ & Hnolist).
  destruct (Hnolist _ PNone eq_refl eq_refl) as (H2 & H3 & H4).
  { intros snap H. discriminate H. }
  split; [exact H1|]. split; [exact H2|]. split; [exact H3 | exact H4].
Defined.

Lemma query_failure_propagates_witness :
  fst (run (init (mkSolr Cases.down false)) (DeleteField "docs" (PStr "id"))
           Scenario.start)
  = Raise (TransportError "connection refused") /\
  trace (snd (run (init (mkSolr Cases.down false))
                  (DeleteField "docs" (PStr "id")) Scenario.start))
  = trace Scenario.start +++ [fields_request "docs"].
Proof.
  apply (query_failure_propagates (mkSolr Cases.down false)
           (DeleteField "docs" (PStr "id")) Scenario.start
           (fields_request "docs") "connection refused"); reflexivity.
Defined.

Lemma existence_on_non_list_witness :
  fst (does_field_exist (init (mkSolr Cases.odd false)) "docs" (PStr "id")
                        Scenario.start)
  = Ok false /\
  fst (does_field_type_exist (init (mkSolr Cases.odd false)) "docs" (PStr "id")
                             Scenario.start)
  = Raise TypeError.
Proof.
  split.
  - destruct (existence_on_non_list (mkSolr Cases.odd false) "docs"
                Scenario.start (PStr "id")
                (PDict [("fields", PDict []); ("fieldTypes", PStr "abc");
                        ("copyFields", PNone)])
                (PDict [])) as (Hfields & _).
    + intros l H. discriminate H.
    + apply Hfields; reflexivity.
  - destruct (existence_on_non_list (mkSolr Cases.odd false) "docs"
                Scenario.start (PStr "id")
                (PDict [("fields", PDict []); ("fieldTypes", PStr "abc");
                        ("copyFields", PNone)])
                (PStr "abc")) as (_ & Htypes).
    + intros l H. discriminate H.
    + apply Htypes; reflexivity.
Defined.

Lemma diagnostic_agrees_with_exists_witness :
  exists found : bool,
    fst (does_copy_field_exist Scenario.docs "docs" (PStr "title") (PStr "text")
                               Scenario.start)
    = Ok found /\
    log (snd (delete_copy_field Scenario.docs "docs" 2 Scenario.start))
    = log Scenario.start +++ [] +++
      (if found then []
       else [(INFO, "Fieldset not in Solr Copy Fields: "
                    ++ Py.str (PDict (cells Scenario.start 2)))]).
Proof.
  eapply (diagnostic_agrees_with_exists
           (mkSolr Scenario.server false) "docs" 2 Scenario.start
           (PStr "title") (PStr "text") _ [PDict Scenario.rule]).
  - reflexivity.
  - reflexivity.
  - reflexivity.
  - repeat constructor. exists (PStr "title"), (PStr "text"). left. reflexivity.
Defined.

(** ** One call after another *)

(** When [create_field] has returned and the transport then answers the
    fields query with a list that holds a record of the same name, a second
    [create_field] of the same mapping raises its [ValueError] and sends
    the query only: no second add-field request goes out. *)
Theorem create_field_twice (s : Solr) (coll : string) (l : loc) (w : World)
  (name r res : pyval) (fields : list pyval) :
  l < next w ->
  Py.dict_get "name" (cells w l) = Some name ->
  let first := create_field (init s) coll l w in
  fst first = Ok r ->
  transport s (trace (snd first)) (fields_request coll) = Response res ->
  getitem res "fields" = Ok (PList fields) ->
  Forall (has_key "name") fields ->
  Exists (named name) fields ->
  let second := create_field (init s) coll l (snd first) in
  fst second
  = Raise (ValueError (format2 "Field " name
                         " Already Exists in Solr Collection " coll)) /\
  trace (snd second) = trace (snd first) +++ [fields_request coll].
Proof.
  intros Hl Hname first Hok Hget Hkey Hwf Hex second.
  assert (Hcell : cells (snd first) l = cells w l).
  { destruct (read_only_run (init s) (CreateField coll l) w) as [_ Hcells].
    apply Hcells, Hl. }
  assert (Hn : dict_getitem (cells (snd first) l) "name" = Ok name)
    by (rewrite Hcell; unfold dict_getitem; rewrite Hname; reflexivity).
  subst second.
  rewrite (create_field_eq (init s) (init_endpoint s) coll (snd first) l name Hn).
  destruct (name_in_records_spec name fields Hwf) as (b & Hb & Hiff).
  assert (Hp : fst (does_field_exist (init s) coll name (snd first)) = Ok true).
  { rewrite does_field_exist_eq. simpl solr. simpl transport.
    rewrite Hget. cbn [fst of_reply and_then]. rewrite Hkey. cbn [and_then].
    rewrite Hb. f_equal. apply Hiff, Hex. }
  rewrite (checked_fails (init s) coll "add-field" _ _ _ true _ (snd first) Hp).
  split; reflexivity.
Qed.

Lemma create_field_twice_witness :
  let self := init (mkSolr Cases.remembering false) in
  let first := create_field self "docs" 0 Scenario.start in
  let second := create_field self "docs" 0 (snd first) in
  fst first = Ok Scenario.status_ok /\
  fst second
  = Raise (ValueError "Field sell-by Already Exists in Solr Collection docs") /\
  trace (snd second)
  = [fields_request "docs"; patch "docs" "add-field" Scenario.sell_by;
     fields_request "docs"].
Proof.
  intros self first second.
  split; [reflexivity|].
  assert (Hl : 0 < next Scenario.start) by (simpl; lia).
  destruct (create_field_twice
              (mkSolr Cases.remembering false) "docs" 0 Scenario.start
              (PStr "sell-by") Scenario.status_ok
              (PDict [("fields", PList [PDict Scenario.sell_by])])
              [PDict Scenario.sell_by] Hl eq_refl eq_refl eq_refl eq_refl)
    as (Hres & Htrace).
  - repeat constructor. exists (PStr "sell-by"). reflexivity.
  - left. exists (PStr "sell-by"). split; reflexivity.
  - split; [exact Hres | exact Htrace].
Defined.

(** ** The patch request of every mutating call *)

Lemma append_assoc (a b c : string) : (a ++ b) ++ c = a ++ (b ++ c).
Proof. induction a as [|x a IH]; simpl; [reflexivity | rewrite IH; reflexivity]. Qed.

(** The text of the body: the verb as a JSON string, a colon, and the
    items of the wrapped mapping in their order between braces. *)
Lemma patch_text (coll verb : string) (inner : pydict) :
  patch coll verb inner
  = mkRequest (Some "POST") "schema/" coll
      (Some ("{" ++ Py.json_str verb ++ ": {" ++
             Py.join ", " (List.map json_item inner) ++ "}}")).
Proof.
  unfold patch. do 2 f_equal.
  change (Py.json_dumps (PDict [(verb, PDict inner)]))
    with ("{" ++ (Py.json_str verb ++ ": " ++
                  ("{" ++ Py.join ", " (List.map json_item inner) ++ "}"))
              ++ "}").
  rewrite append_assoc. cbn [append]. rewrite append_assoc. reflexivity.
Qed.

Lemma patch_request_text (c : Call) (w : World) :
  patch_request c w
  = mkRequest (Some "POST") "schema/" (call_collection c)
      (Some ("{" ++ quoted (patch_verb c) ++ ": {" ++
             Py.join ", " (List.map json_item (patch_inner c w)) ++ "}}")).
Proof.
  destruct c; unfold patch_request; rewrite patch_text; reflexivity.
Qed.

(** What a checked patch comes to, by the answer of the existence query:
    the patch request is sent exactly when the answer is the wanted one. *)
Lemma checked_by_answer (self : Schema) (coll verb : string) (d : pydict)
  (q : Request) (present : result bool) (wanted : bool) (msg : string)
  (w : World) :
  let out := checked self coll verb d q present (negb wanted) msg w in
  let passed := match present with
                | Ok b => Bool.eqb b wanted
                | Raise _ => false
                end in
  (passed = true ->
   trace (snd out) = trace w +++ [q] +++ [patch coll verb d] /\
   fst out = of_reply (transport (solr self) (trace w +++ [q])
                                 (patch coll verb d))) /\
  (passed = false ->
   trace (snd out) = trace w +++ [q] /\ exists e, fst out = Raise e).
Proof.
  unfold checked.
  destruct present as [[|]|e]; destruct wanted; simpl;
    rewrite <- ?app_assoc; split; intros H; try discriminate H;
    split; try reflexivity; eexists; reflexivity.
Qed.

(** C6. Every mutating call that gets past its checks (always, for
    [create_copy_field]) sends, after its queries, exactly one more
    request, and its outcome is the answer of the transport to that
    request.  The request has method POST, the endpoint [schema/] and the
    collection of the call, and its body is the dump of the single-key
    mapping from the verb of the operation to the items of the caller's
    mapping (to [{"name": field_name}] for [delete_field]): as a text, the
    verb between double quotes, a colon, and the items in their order
    between braces.  A call that does not get past its checks sends its
    queries, which are no POST, and raises. *)
Theorem mutating_call_posts_patch (s : Solr) (c : Call) (w : World) :
  let out := run (init s) c w in
  let req := patch_request c w in
  let reads := queries c w in
  method req = Some "POST" /\
  endpoint req = "schema/" /\
  collection req = call_collection c /\
  data req
  = Some (Py.json_dumps (PDict [(patch_verb c, PDict (patch_inner c w))])) /\
  data req
  = Some ("{" ++ quoted (patch_verb c) ++ ": {" ++
          Py.join ", " (List.map json_item (patch_inner c w)) ++ "}}") /\
  is_post req = true /\
  List.filter is_post reads = [] /\
  (passes (init s) c w = true ->
   trace (snd out) = trace w +++ reads +++ [req] /\
   fst out = of_reply (transport s (trace w +++ reads) req)) /\
  (passes (init s) c w = false ->
   trace (snd out) = trace w +++ reads /\ exists e, fst out = Raise e).
Proof.
  intros out req reads. subst out req reads.
  split; [destruct c; reflexivity|].
  split; [destruct c; reflexivity|].
  split; [destruct c; reflexivity|].
  split; [destruct c; reflexivity|].
  split; [rewrite patch_request_text; reflexivity|].
  split; [destruct c; reflexivity|].
  split; [destruct c; unfold queries; simpl;
          try destruct (Py.dict_get "name" (cells w _)); reflexivity|].
  destruct c as [coll l|coll l|coll n|coll l|coll l|coll l|coll l];
    unfold queries, passes; cbn [existence_query reaches_query run patch_request].
  3: { rewrite (delete_field_eq (init s) (init_endpoint s)).
       exact (checked_by_answer (init s) coll "delete-field" [("name", n)]
                (fields_request coll)
                (fst (does_field_exist (init s) coll n w)) true _ w). }
  5: { rewrite (create_copy_field_eq (init s) (init_endpoint s)).
       cbn [fst snd sent trace]. rewrite !app_nil_r.
       split; [intros _; split; reflexivity | discriminate]. }
  5: { rewrite get_schema_copyfields_eq. cbn [fst].
       destruct (transport (solr (init s)) (trace w) (copyfields_request coll))
         as [res|e] eqn:Hget; cbn [of_reply and_then].
       - destruct (getitem res "copyFields") as [v|e] eqn:Hkey.
         + destruct v as [| | | |snap|];
             try (split; [discriminate|]; intros _;
                  rewrite (delete_copy_field_stops (init s) coll l w TypeError)
                    by (rewrite Hget; cbn [of_reply and_then]; rewrite Hkey;
                        reflexivity);
                  split; [reflexivity | eexists; reflexivity]).
           split; [|discriminate]. intros _.
           rewrite (delete_copy_field_eq (init s) coll l w res snap
                      (init_endpoint s) Hget Hkey).
           cbn [fst snd trace]. split; reflexivity.
         + split; [discriminate|]. intros _.
           rewrite (delete_copy_field_stops (init s) coll l w e)
             by (rewrite Hget; cbn [of_reply and_then]; rewrite Hkey;
                 reflexivity).
           split; [reflexivity | eexists; reflexivity].
       - split; [discriminate|]. intros _.
         rewrite (delete_copy_field_stops (init s) coll l w (TransportError e))
           by (rewrite Hget; reflexivity).
         split; [reflexivity | eexists; reflexivity]. }
  all: destruct (Py.dict_get "name" (cells w l)) as [name|] eqn:Hname;
    [ assert (Hn : dict_getitem (cells w l) "name" = Ok name)
        by (unfold dict_getitem; rewrite Hname; reflexivity)
    | destruct (no_name_eq (init s) coll w l Hname) as (H1 & H2 & H3 & H4);
      rewrite ?H1, ?H2, ?H3, ?H4; cbn [fst snd]; rewrite app_nil_r;
      split; [discriminate | intros _; split; [reflexivity | eexists; reflexivity]] ].
  - rewrite (create_field_eq (init s) (init_endpoint s) coll w l name Hn).
    exact (checked_by_answer (init s) coll "add-field" (cells w l)
             (fields_request coll)
             (fst (does_field_exist (init s) coll name w)) false _ w).
  - rewrite (replace_field_eq (init s) (init_endpoint s) coll w l name Hn).
    exact (checked_by_answer (init s) coll "replace-field" (cells w l)
             (fields_request coll)
             (fst (does_field_exist (init s) coll name w)) true _ w).
  - rewrite (create_field_type_eq (init s) (init_endpoint s) coll w l name Hn).
    exact (checked_by_answer (init s) coll "add-field-type" (cells w l)
             (field_types_request coll)
             (fst (does_field_type_exist (init s) coll name w)) false _ w).
  - rewrite (replace_field_type_eq (init s) (init_endpoint s) coll w l name Hn).
    exact (checked_by_answer (init s) coll "replace-field-type" (cells w l)
             (field_types_request coll)
             (fst (does_field_type_exist (init s) coll name w)) true _ w).
Qed.

(** [create_copy_field] of a mapping with values of every kind, with the
    text of the body written out; [create_field] of [sell_by] on a
    collection without fields; [replace_field] of [sell_by] on a
    collection that does not have it. *)
Lemma mutating_call_posts_patch_witness :
  let q := quoted in
  let bs := Py.chr Py.backslash in
  let self := init (mkSolr Scenario.server false) in
  let bare := init (mkSolr Scenario.empty_server false) in
  (passes self (CreateCopyField "docs" 0) Cases.start_rich = true /\
   fst (run self (CreateCopyField "docs" 0) Cases.start_rich)
   = Ok Scenario.status_ok /\
   trace (snd (run self (CreateCopyField "docs" 0) Cases.start_rich))
   = [mkRequest (Some "POST") "schema/" "docs"
        (Some ("{" ++ q "add-copy-field" ++ ": {" ++
               q "name" ++ ": " ++
               q ("a" ++ bs ++ Py.chr Py.dquote ++ "b" ++ bs ++ bs ++ "c") ++ ", " ++
               q "n" ++ ": -12, " ++ q "z" ++ ": 0, " ++
               q "default" ++ ": null, " ++
               q "stored" ++ ": false, " ++ q "indexed" ++ ": true, " ++
               q "tags" ++ ": [" ++ q "x" ++ ", [], {}], " ++
               q "text" ++ ": " ++ q "line\nbreak\ttab\u0001\u007f\u00e9" ++ ", " ++
               q "attrs" ++ ": {" ++ q "k" ++ ": [1, 2]}}}"))]) /\
  (passes bare (CreateField "docs" 0) Scenario.start = true /\
   fst (run bare (CreateField "docs" 0) Scenario.start) = Ok Scenario.status_ok /\
   trace (snd (run bare (CreateField "docs" 0) Scenario.start))
   = [mkRequest None "schema/fields" "docs" None;
      mkRequest (Some "POST") "schema/" "docs"
        (Some ("{" ++ q "add-field" ++ ": {" ++
               q "name" ++ ": " ++ q "sell-by" ++ ", " ++
               q "type" ++ ": " ++ q "tdate" ++ ", " ++
               q "stored" ++ ": true}}"))]) /\
  (passes self (ReplaceField "docs" 0) Scenario.start = false /\
   trace (snd (run self (ReplaceField "docs" 0) Scenario.start))
   = [mkRequest None "schema/fields" "docs" None] /\
   exists e, fst (run self (ReplaceField "docs" 0) Scenario.start) = Raise e).
Proof.
  intros q bs self bare. split; [|split].
  - destruct (mutating_call_posts_patch (mkSolr Scenario.server false)
                (CreateCopyField "docs" 0) Cases.start_rich)
      as (_ & _ & _ & _ & _ & _ & _ & Hpass & _).
    destruct (Hpass eq_refl) as (Htrace & Hres).
    split; [reflexivity|]. split; [exact Hres | exact Htrace].
  - destruct (mutating_call_posts_patch (mkSolr Scenario.empty_server false)
                (CreateField "docs" 0) Scenario.start)
      as (_ & _ & _ & _ & _ & _ & _ & Hpass & _).
    destruct (Hpass eq_refl) as (Htrace & Hres).
    split; [reflexivity|]. split; [exact Hres | exact Htrace].
  - destruct (mutating_call_posts_patch (mkSolr Scenario.server false)
                (ReplaceField "docs" 0) Scenario.start)
      as (_ & _ & _ & _ & _ & _ & _ & _ & Hfail).
    destruct (Hfail eq_refl) as (Htrace & Hraise).
    split; [reflexivity|]. split; [exact Htrace | exact Hraise].
Defined.
